(** * Defaulting of the scheduler configuration (pkg/scheduler/apis/config/v1/defaults.go)

    A shallow embedding of the defaulting functions of the v1 scheduler
    configuration API and the properties of the defaulting pass. *)

From Stdlib Require Import ZArith Lia Bool.
From Stdlib Require Import Floats.PrimFloat.
From stdpp Require Import base decidable option list sorting gmap strings.

Local Open Scope Z_scope.
Set Warnings "-clear-no-such-hyp".

(** ** Strings and their order

    Go compares strings byte by byte; [String.compare] is that order on
    [string] (a list of 8-bit characters). *)

Module StringOrder.

Definition le (s1 s2 : string) : Prop := String.leb s1 s2 = true.
Definition lt (s1 s2 : string) : Prop := String.ltb s1 s2 = true.

#[global] Instance le_dec : RelDecision le.
Proof. intros s1 s2. unfold le. apply _. Defined.

#[global] Instance lt_dec : RelDecision lt.
Proof. intros s1 s2. unfold lt. apply _. Defined.

End StringOrder.

(** ** sets.String of k8s.io/apimachinery

    [sets.String] is a [map[string]Empty]; [Insert] adds a key, [Has] tests
    membership and [List] returns the keys as a sorted slice. *)

Module StringSet.

Definition NewString : gset string := ∅.

Definition Insert (s : gset string) (item : string) : gset string :=
  {[ item ]} ∪ s.

Definition Has (s : gset string) (item : string) : bool :=
  bool_decide (item ∈ s).

Definition List (s : gset string) : list string :=
  merge_sort StringOrder.le (elements s).

End StringSet.

(** ** Data model (k8s.io/kube-scheduler/config/v1 and its dependencies)

    Pointers to scalars are [option]s, slices are lists, [int32] and
    [int64] fields are [Z] (the defaulting code compares them with zero and
    stores constants, it does no arithmetic on them), and the [float32]
    field QPS is a [float], in which every [float32] value is exact. *)

Record Plugin := {
  Plugin_Name : string;
  Plugin_Weight : option Z
}.

Record PluginSet := {
  PluginSet_Enabled : list Plugin;
  PluginSet_Disabled : list Plugin
}.

Record Plugins := {
  Plugins_QueueSort : PluginSet;
  Plugins_PreFilter : PluginSet;
  Plugins_Filter : PluginSet;
  Plugins_PostFilter : PluginSet;
  Plugins_PreScore : PluginSet;
  Plugins_Score : PluginSet;
  Plugins_Reserve : PluginSet;
  Plugins_Permit : PluginSet;
  Plugins_PreBind : PluginSet;
  Plugins_Bind : PluginSet;
  Plugins_PostBind : PluginSet;
  Plugins_MultiPoint : PluginSet
}.

Record GroupVersion := {
  GroupVersion_Group : string;
  GroupVersion_Version : string
}.

Record GroupVersionKind := {
  Group : string;
  Version : string;
  Kind : string
}.

Definition WithKind (gv : GroupVersion) (kind : string) : GroupVersionKind :=
  {| Group := GroupVersion_Group gv;
     Version := GroupVersion_Version gv;
     Kind := kind |}.

(** A [runtime.Object] held by a [RawExtension]: the nil interface, a
    [*runtime.Unknown] (undecoded bytes with their type information), or a
    pointer to a typed argument struct.  [A] is the type of the argument
    structs known to the scheme; the kind recorded in the object's
    [TypeMeta] is kept next to the struct, since the defaulting functions
    of the scheme work on the fields of the struct only. *)
Inductive Object (A : Type) : Type :=
| NilObject
| Unknown (gvk : GroupVersionKind) (raw : string)
| Typed (gvk : GroupVersionKind) (a : A).

Arguments NilObject {A}.
Arguments Unknown {A} gvk raw.
Arguments Typed {A} gvk a.

Record RawExtension (A : Type) := {
  Raw : string;
  RawExtension_Object : Object A
}.
Arguments Raw {A} _.
Arguments RawExtension_Object {A} _.

Record PluginConfig (A : Type) := {
  PluginConfig_Name : string;
  PluginConfig_Args : RawExtension A
}.
Arguments PluginConfig_Name {A} _.
Arguments PluginConfig_Args {A} _.

Record KubeSchedulerProfile (A : Type) := {
  SchedulerName : option string;
  Profile_Plugins : option Plugins;
  Profile_PluginConfig : list (PluginConfig A)
}.
Arguments SchedulerName {A} _.
Arguments Profile_Plugins {A} _.
Arguments Profile_PluginConfig {A} _.

Record LeaderElectionConfiguration := {
  LeaderElect : option bool;
  LeaseDuration : Z;
  RenewDeadline : Z;
  RetryPeriod : Z;
  ResourceLock : string;
  ResourceName : string;
  ResourceNamespace : string
}.

Record ClientConnectionConfiguration := {
  ContentType : string;
  QPS : float;
  Burst : Z
}.

Record KubeSchedulerConfiguration (A : Type) := {
  Parallelism : option Z;
  LeaderElection : LeaderElectionConfiguration;
  ClientConnection : ClientConnectionConfiguration;
  EnableProfiling : option bool;
  EnableContentionProfiling : option bool;
  PercentageOfNodesToScore : option Z;
  PodInitialBackoffSeconds : option Z;
  PodMaxBackoffSeconds : option Z;
  Profiles : list (KubeSchedulerProfile A)
}.
Arguments Parallelism {A} _.
Arguments LeaderElection {A} _.
Arguments ClientConnection {A} _.
Arguments EnableProfiling {A} _.
Arguments EnableContentionProfiling {A} _.
Arguments PercentageOfNodesToScore {A} _.
Arguments PodInitialBackoffSeconds {A} _.
Arguments PodMaxBackoffSeconds {A} _.
Arguments Profiles {A} _.

(** *** Plugin argument structs defaulted in this file *)

Record DefaultPreemptionArgs := {
  MinCandidateNodesPercentage : option Z;
  MinCandidateNodesAbsolute : option Z
}.

Record InterPodAffinityArgs := {
  HardPodAffinityWeight : option Z
}.

Record UtilizationShapePoint := {
  Utilization : Z;
  Score : Z
}.

Record VolumeBindingArgs := {
  BindTimeoutSeconds : option Z;
  Shape : list UtilizationShapePoint
}.

Record ResourceSpec := {
  ResourceSpec_Name : string;
  ResourceSpec_Weight : Z
}.

Record NodeResourcesBalancedAllocationArgs := {
  Resources : list ResourceSpec
}.

Record PodTopologySpreadArgs := {
  DefaultingType : string
}.

Record ScoringStrategy := {
  ScoringStrategy_Type : string;
  ScoringStrategy_Resources : list ResourceSpec
}.

Record NodeResourcesFitArgs := {
  NodeResourcesFitArgs_ScoringStrategy : option ScoringStrategy
}.

(** Field updates ([obj.F = v] in the source). *)

Definition set_Parallelism {A} (v : option Z) (obj : KubeSchedulerConfiguration A) :=
  {| Parallelism := v; LeaderElection := LeaderElection obj;
     ClientConnection := ClientConnection obj;
     EnableProfiling := EnableProfiling obj;
     EnableContentionProfiling := EnableContentionProfiling obj;
     PercentageOfNodesToScore := PercentageOfNodesToScore obj;
     PodInitialBackoffSeconds := PodInitialBackoffSeconds obj;
     PodMaxBackoffSeconds := PodMaxBackoffSeconds obj;
     Profiles := Profiles obj |}.

Definition set_LeaderElection {A} (v : LeaderElectionConfiguration)
    (obj : KubeSchedulerConfiguration A) :=
  {| Parallelism := Parallelism obj; LeaderElection := v;
     ClientConnection := ClientConnection obj;
     EnableProfiling := EnableProfiling obj;
     EnableContentionProfiling := EnableContentionProfiling obj;
     PercentageOfNodesToScore := PercentageOfNodesToScore obj;
     PodInitialBackoffSeconds := PodInitialBackoffSeconds obj;
     PodMaxBackoffSeconds := PodMaxBackoffSeconds obj;
     Profiles := Profiles obj |}.

Definition set_ClientConnection {A} (v : ClientConnectionConfiguration)
    (obj : KubeSchedulerConfiguration A) :=
  {| Parallelism := Parallelism obj; LeaderElection := LeaderElection obj;
     ClientConnection := v;
     EnableProfiling := EnableProfiling obj;
     EnableContentionProfiling := EnableContentionProfiling obj;
     PercentageOfNodesToScore := PercentageOfNodesToScore obj;
     PodInitialBackoffSeconds := PodInitialBackoffSeconds obj;
     PodMaxBackoffSeconds := PodMaxBackoffSeconds obj;
     Profiles := Profiles obj |}.

Definition set_EnableProfiling {A} (v : option bool)
    (obj : KubeSchedulerConfiguration A) :=
  {| Parallelism := Parallelism obj; LeaderElection := LeaderElection obj;
     ClientConnection := ClientConnection obj;
     EnableProfiling := v;
     EnableContentionProfiling := EnableContentionProfiling obj;
     PercentageOfNodesToScore := PercentageOfNodesToScore obj;
     PodInitialBackoffSeconds := PodInitialBackoffSeconds obj;
     PodMaxBackoffSeconds := PodMaxBackoffSeconds obj;
     Profiles := Profiles obj |}.

Definition set_EnableContentionProfiling {A} (v : option bool)
    (obj : KubeSchedulerConfiguration A) :=
  {| Parallelism := Parallelism obj; LeaderElection := LeaderElection obj;
     ClientConnection := ClientConnection obj;
     EnableProfiling := EnableProfiling obj;
     EnableContentionProfiling := v;
     PercentageOfNodesToScore := PercentageOfNodesToScore obj;
     PodInitialBackoffSeconds := PodInitialBackoffSeconds obj;
     PodMaxBackoffSeconds := PodMaxBackoffSeconds obj;
     Profiles := Profiles obj |}.

Definition set_PercentageOfNodesToScore {A} (v : option Z)
    (obj : KubeSchedulerConfiguration A) :=
  {| Parallelism := Parallelism obj; LeaderElection := LeaderElection obj;
     ClientConnection := ClientConnection obj;
     EnableProfiling := EnableProfiling obj;
     EnableContentionProfiling := EnableContentionProfiling obj;
     PercentageOfNodesToScore := v;
     PodInitialBackoffSeconds := PodInitialBackoffSeconds obj;
     PodMaxBackoffSeconds := PodMaxBackoffSeconds obj;
     Profiles := Profiles obj |}.

Definition set_PodInitialBackoffSeconds {A} (v : option Z)
    (obj : KubeSchedulerConfiguration A) :=
  {| Parallelism := Parallelism obj; LeaderElection := LeaderElection obj;
     ClientConnection := ClientConnection obj;
     EnableProfiling := EnableProfiling obj;
     EnableContentionProfiling := EnableContentionProfiling obj;
     PercentageOfNodesToScore := PercentageOfNodesToScore obj;
     PodInitialBackoffSeconds := v;
     PodMaxBackoffSeconds := PodMaxBackoffSeconds obj;
     Profiles := Profiles obj |}.

Definition set_PodMaxBackoffSeconds {A} (v : option Z)
    (obj : KubeSchedulerConfiguration A) :=
  {| Parallelism := Parallelism obj; LeaderElection := LeaderElection obj;
     ClientConnection := ClientConnection obj;
     EnableProfiling := EnableProfiling obj;
     EnableContentionProfiling := EnableContentionProfiling obj;
     PercentageOfNodesToScore := PercentageOfNodesToScore obj;
     PodInitialBackoffSeconds := PodInitialBackoffSeconds obj;
     PodMaxBackoffSeconds := v;
     Profiles := Profiles obj |}.

Definition set_Profiles {A} (v : list (KubeSchedulerProfile A))
    (obj : KubeSchedulerConfiguration A) :=
  {| Parallelism := Parallelism obj; LeaderElection := LeaderElection obj;
     ClientConnection := ClientConnection obj;
     EnableProfiling := EnableProfiling obj;
     EnableContentionProfiling := EnableContentionProfiling obj;
     PercentageOfNodesToScore := PercentageOfNodesToScore obj;
     PodInitialBackoffSeconds := PodInitialBackoffSeconds obj;
     PodMaxBackoffSeconds := PodMaxBackoffSeconds obj;
     Profiles := v |}.

Definition set_ResourceLock (v : string) (l : LeaderElectionConfiguration) :=
  {| LeaderElect := LeaderElect l; LeaseDuration := LeaseDuration l;
     RenewDeadline := RenewDeadline l; RetryPeriod := RetryPeriod l;
     ResourceLock := v; ResourceName := ResourceName l;
     ResourceNamespace := ResourceNamespace l |}.

Definition set_ResourceName (v : string) (l : LeaderElectionConfiguration) :=
  {| LeaderElect := LeaderElect l; LeaseDuration := LeaseDuration l;
     RenewDeadline := RenewDeadline l; RetryPeriod := RetryPeriod l;
     ResourceLock := ResourceLock l; ResourceName := v;
     ResourceNamespace := ResourceNamespace l |}.

Definition set_ResourceNamespace (v : string) (l : LeaderElectionConfiguration) :=
  {| LeaderElect := LeaderElect l; LeaseDuration := LeaseDuration l;
     RenewDeadline := RenewDeadline l; RetryPeriod := RetryPeriod l;
     ResourceLock := ResourceLock l; ResourceName := ResourceName l;
     ResourceNamespace := v |}.

Definition set_ContentType (v : string) (c : ClientConnectionConfiguration) :=
  {| ContentType := v; QPS := QPS c; Burst := Burst c |}.

Definition set_QPS (v : float) (c : ClientConnectionConfiguration) :=
  {| ContentType := ContentType c; QPS := v; Burst := Burst c |}.

Definition set_Burst (v : Z) (c : ClientConnectionConfiguration) :=
  {| ContentType := ContentType c; QPS := QPS c; Burst := v |}.

Definition set_SchedulerName {A} (v : option string) (p : KubeSchedulerProfile A) :=
  {| SchedulerName := v; Profile_Plugins := Profile_Plugins p;
     Profile_PluginConfig := Profile_PluginConfig p |}.

Definition set_Weight (v : Z) (r : ResourceSpec) :=
  {| ResourceSpec_Name := ResourceSpec_Name r; ResourceSpec_Weight := v |}.

(** [len(s) == 0] on a Go string. *)
Definition len_is_0 (s : string) : bool := Nat.eqb (String.length s) 0.

(** The zero value of [KubeSchedulerConfiguration]. *)
Definition emptyConfiguration {A} : KubeSchedulerConfiguration A :=
  {| Parallelism := None;
     LeaderElection :=
       {| LeaderElect := None; LeaseDuration := 0; RenewDeadline := 0;
          RetryPeriod := 0; ResourceLock := ""; ResourceName := "";
          ResourceNamespace := "" |};
     ClientConnection := {| ContentType := ""; QPS := 0%float; Burst := 0 |};
     EnableProfiling := None;
     EnableContentionProfiling := None;
     PercentageOfNodesToScore := None;
     PodInitialBackoffSeconds := None;
     PodMaxBackoffSeconds := None;
     Profiles := [] |}.

(** ** The scheme of plugin argument types (k8s.io/apimachinery runtime.Scheme)

    The defaulting pass uses two capabilities of the scheme returned by
    [GetPluginArgConversionScheme]: [New], which builds the zero value of
    the registered type of a kind or fails, and [Default], which runs the
    defaulting function registered for the type of an object. *)

Record Scheme (A : Type) := {
  scheme_New : GroupVersionKind -> option A;
  scheme_Default : A -> A
}.
Arguments scheme_New {A} _ _.
Arguments scheme_Default {A} _ _.

Definition emptyGVK : GroupVersionKind :=
  {| Group := ""; Version := ""; Kind := "" |}.

(** [scheme.New(gvk)]: [None] stands for the error result. *)
Definition New {A} (scheme : Scheme A) (gvk : GroupVersionKind) : option (Object A) :=
  Typed emptyGVK <$> scheme_New scheme gvk.

(** [scheme.Default(obj)]: no defaulting function is registered for the
    nil interface nor for [*runtime.Unknown]. *)
Definition Default {A} (scheme : Scheme A) (obj : Object A) : Object A :=
  match obj with
  | Typed gvk a => Typed gvk (scheme_Default scheme a)
  | _ => obj
  end.

(** [obj.GetObjectKind().SetGroupVersionKind(gvk)]. *)
Definition SetGroupVersionKind {A} (gvk : GroupVersionKind) (obj : Object A) : Object A :=
  match obj with
  | NilObject => NilObject
  | Unknown _ raw => Unknown gvk raw
  | Typed _ a => Typed gvk a
  end.

(** ** Collaborators and constants declared outside this file *)

Record Externals (A : Type) := {
  (** [v1.DefaultSchedulerName] *)
  DefaultSchedulerName : string;
  (** [config.DefaultPercentageOfNodesToScore] *)
  DefaultPercentageOfNodesToScore : Z;
  (** [configv1.SchedulerDefaultLockObjectNamespace] *)
  SchedulerDefaultLockObjectNamespace : string;
  (** [configv1.SchedulerDefaultLockObjectName] *)
  SchedulerDefaultLockObjectName : string;
  (** [configv1.SchemeGroupVersion] *)
  SchemeGroupVersion : GroupVersion;
  (** the result of [getDefaultPlugins()] *)
  getDefaultPlugins : option Plugins;
  (** [mergePlugins(defaultPlugins, customPlugins)] *)
  mergePlugins : option Plugins -> option Plugins -> option Plugins;
  (** the result of [GetPluginArgConversionScheme()] *)
  GetPluginArgConversionScheme : Scheme A;
  (** [componentbaseconfigv1alpha1.RecommendedDefaultLeaderElectionConfiguration] *)
  RecommendedDefaultLeaderElectionConfiguration :
    LeaderElectionConfiguration -> LeaderElectionConfiguration
}.
Arguments DefaultSchedulerName {A} _.
Arguments DefaultPercentageOfNodesToScore {A} _.
Arguments SchedulerDefaultLockObjectNamespace {A} _.
Arguments SchedulerDefaultLockObjectName {A} _.
Arguments SchemeGroupVersion {A} _.
Arguments getDefaultPlugins {A} _.
Arguments mergePlugins {A} _ _ _.
Arguments GetPluginArgConversionScheme {A} _.
Arguments RecommendedDefaultLeaderElectionConfiguration {A} _ _.

(** ** The defaulting functions *)

(** [pluginsNames], lines 40-65. *)
Definition pluginsNames (p : option Plugins) : list string :=
  match p with
  | None => []
  | Some p =>
    let extensions := [
      Plugins_MultiPoint p;
      Plugins_PreFilter p;
      Plugins_Filter p;
      Plugins_PostFilter p;
      Plugins_Reserve p;
      Plugins_PreScore p;
      Plugins_Score p;
      Plugins_PreBind p;
      Plugins_Bind p;
      Plugins_PostBind p;
      Plugins_Permit p;
      Plugins_QueueSort p
    ] in
    let n :=
      foldl (fun n e =>
               foldl (fun n pg => StringSet.Insert n (Plugin_Name pg))
                     n (PluginSet_Enabled e))
            StringSet.NewString extensions in
    StringSet.List n
  end.

Section Defaulting.

Context {A : Type} (X : Externals A).

(** One iteration of the loop of lines 73-80 on the entry
    [prof.PluginConfig[j]]: an entry holding a [*runtime.Unknown] is
    skipped, any other has its object defaulted in place. *)
Definition defaultExistingArgs (scheme : Scheme A) (pc : PluginConfig A)
    : PluginConfig A :=
  let args := RawExtension_Object (PluginConfig_Args pc) in
  match args with
  | Unknown _ _ => pc
  | _ =>
    {| PluginConfig_Name := PluginConfig_Name pc;
       PluginConfig_Args :=
         {| Raw := Raw (PluginConfig_Args pc);
            RawExtension_Object := Default scheme args |} |}
  end.

(** The loop of lines 73-80: the state is the set [existingConfigs] and
    the entries of [prof.PluginConfig] processed so far. *)
Definition defaultExistingConfigs (scheme : Scheme A)
    (configs : list (PluginConfig A)) : gset string * list (PluginConfig A) :=
  foldl (fun st pc =>
           (StringSet.Insert st.1 (PluginConfig_Name pc),
            st.2 ++ [defaultExistingArgs scheme pc]))
        (StringSet.NewString, []) configs.

(** One iteration of the loop of lines 83-99. *)
Definition appendDefaultConfig (scheme : Scheme A) (existingConfigs : gset string)
    (configs : list (PluginConfig A)) (name : string) : list (PluginConfig A) :=
  if StringSet.Has existingConfigs name then configs
  else
    let gvk := WithKind (SchemeGroupVersion X) (name ++ "Args") in
    match New scheme gvk with
    | None => configs
    | Some args =>
      let args := Default scheme args in
      let args := SetGroupVersionKind gvk args in
      configs ++ [ {| PluginConfig_Name := name;
                      PluginConfig_Args :=
                        {| Raw := ""; RawExtension_Object := args |} |} ]
    end.

(** Lines 70-99 of [setDefaults_KubeSchedulerProfile]: everything after
    the call of [mergePlugins], whose result is [plugins]. *)
Definition completePluginConfig (plugins : option Plugins)
    (prof : KubeSchedulerProfile A) : KubeSchedulerProfile A :=
  let scheme := GetPluginArgConversionScheme X in
  let '(existingConfigs, configs) :=
    defaultExistingConfigs scheme (Profile_PluginConfig prof) in
  let configs :=
    foldl (appendDefaultConfig scheme existingConfigs) configs
          (pluginsNames plugins) in
  {| SchedulerName := SchedulerName prof;
     Profile_Plugins := plugins;
     Profile_PluginConfig := configs |}.

(** [setDefaults_KubeSchedulerProfile], lines 67-100. *)
Definition setDefaults_KubeSchedulerProfile (prof : KubeSchedulerProfile A)
    : KubeSchedulerProfile A :=
  completePluginConfig
    (mergePlugins X (getDefaultPlugins X) (Profile_Plugins prof)) prof.

(** *** The statements of [SetDefaults_KubeSchedulerConfiguration]

    One definition for each guarded assignment of lines 104-170, in the
    order of the source. *)

(** Lines 104-106. *)
Definition defaultParallelism (obj : KubeSchedulerConfiguration A) :=
  match Parallelism obj with
  | None => set_Parallelism (Some 16) obj
  | Some _ => obj
  end.

(** Lines 108-110. *)
Definition defaultProfiles (obj : KubeSchedulerConfiguration A) :=
  if Nat.eqb (length (Profiles obj)) 0 then
    set_Profiles
      (Profiles obj ++ [ {| SchedulerName := None; Profile_Plugins := None;
                            Profile_PluginConfig := [] |} ]) obj
  else obj.

(** Lines 113-115. *)
Definition defaultSchedulerName (obj : KubeSchedulerConfiguration A) :=
  match Profiles obj with
  | [p] =>
    match SchedulerName p with
    | None => set_Profiles [set_SchedulerName (Some (DefaultSchedulerName X)) p] obj
    | Some _ => obj
    end
  | _ => obj
  end.

(** Lines 123-125. *)
Definition defaultPercentageOfNodesToScore (obj : KubeSchedulerConfiguration A) :=
  match PercentageOfNodesToScore obj with
  | None =>
    set_PercentageOfNodesToScore (Some (DefaultPercentageOfNodesToScore X)) obj
  | Some _ => obj
  end.

(** Lines 127-132. *)
Definition defaultResourceLock (obj : KubeSchedulerConfiguration A) :=
  if len_is_0 (ResourceLock (LeaderElection obj)) then
    set_LeaderElection (set_ResourceLock "leases" (LeaderElection obj)) obj
  else obj.

(** Lines 133-135. *)
Definition defaultResourceNamespace (obj : KubeSchedulerConfiguration A) :=
  if len_is_0 (ResourceNamespace (LeaderElection obj)) then
    set_LeaderElection
      (set_ResourceNamespace (SchedulerDefaultLockObjectNamespace X)
                             (LeaderElection obj)) obj
  else obj.

(** Lines 136-138. *)
Definition defaultResourceName (obj : KubeSchedulerConfiguration A) :=
  if len_is_0 (ResourceName (LeaderElection obj)) then
    set_LeaderElection
      (set_ResourceName (SchedulerDefaultLockObjectName X) (LeaderElection obj)) obj
  else obj.

(** Lines 140-142. *)
Definition defaultContentType (obj : KubeSchedulerConfiguration A) :=
  if len_is_0 (ContentType (ClientConnection obj)) then
    set_ClientConnection
      (set_ContentType "application/vnd.kubernetes.protobuf" (ClientConnection obj))
      obj
  else obj.

(** Lines 144-146. *)
Definition defaultQPS (obj : KubeSchedulerConfiguration A) :=
  if PrimFloat.eqb (QPS (ClientConnection obj)) 0%float then
    set_ClientConnection (set_QPS 50%float (ClientConnection obj)) obj
  else obj.

(** Lines 147-149. *)
Definition defaultBurst (obj : KubeSchedulerConfiguration A) :=
  if Z.eqb (Burst (ClientConnection obj)) 0 then
    set_ClientConnection (set_Burst 100 (ClientConnection obj)) obj
  else obj.

(** Line 152. *)
Definition defaultLeaderElection (obj : KubeSchedulerConfiguration A) :=
  set_LeaderElection
    (RecommendedDefaultLeaderElectionConfiguration X (LeaderElection obj)) obj.

(** Lines 154-156. *)
Definition defaultPodInitialBackoffSeconds (obj : KubeSchedulerConfiguration A) :=
  match PodInitialBackoffSeconds obj with
  | None => set_PodInitialBackoffSeconds (Some 1) obj
  | Some _ => obj
  end.

(** Lines 158-160. *)
Definition defaultPodMaxBackoffSeconds (obj : KubeSchedulerConfiguration A) :=
  match PodMaxBackoffSeconds obj with
  | None => set_PodMaxBackoffSeconds (Some 10) obj
  | Some _ => obj
  end.

(** Lines 163-165. *)
Definition defaultEnableProfiling (obj : KubeSchedulerConfiguration A) :=
  match EnableProfiling obj with
  | None => set_EnableProfiling (Some true) obj
  | Some _ => obj
  end.

(** Lines 168-170; [EnableProfiling] is not nil here. *)
Definition defaultEnableContentionProfiling (obj : KubeSchedulerConfiguration A) :=
  match EnableProfiling obj, EnableContentionProfiling obj with
  | Some true, None => set_EnableContentionProfiling (Some true) obj
  | _, _ => obj
  end.

(** Lines 104-115: the parallelism, the profile list and the scheduler
    name. *)
Definition defaultProfileList (obj : KubeSchedulerConfiguration A)
    : KubeSchedulerConfiguration A :=
  let obj := defaultParallelism obj in
  let obj := defaultProfiles obj in
  defaultSchedulerName obj.

(** Lines 123-170: the scalar fields. *)
Definition defaultScalars (obj : KubeSchedulerConfiguration A)
    : KubeSchedulerConfiguration A :=
  let obj := defaultPercentageOfNodesToScore obj in
  let obj := defaultResourceLock obj in
  let obj := defaultResourceNamespace obj in
  let obj := defaultResourceName obj in
  let obj := defaultContentType obj in
  let obj := defaultQPS obj in
  let obj := defaultBurst obj in
  let obj := defaultLeaderElection obj in
  let obj := defaultPodInitialBackoffSeconds obj in
  let obj := defaultPodMaxBackoffSeconds obj in
  let obj := defaultEnableProfiling obj in
  defaultEnableContentionProfiling obj.

(** [SetDefaults_KubeSchedulerConfiguration], lines 103-171; the loop of
    lines 118-121 defaults every profile. *)
Definition SetDefaults_KubeSchedulerConfiguration
    (obj : KubeSchedulerConfiguration A) : KubeSchedulerConfiguration A :=
  let obj := defaultProfileList obj in
  let obj :=
    set_Profiles (setDefaults_KubeSchedulerProfile <$> Profiles obj) obj in
  defaultScalars obj.

End Defaulting.

(** ** Defaulting of the plugin argument structs, lines 173-241 *)

(** The conversion [int32(x)] of an integer. *)
Definition int32 (x : Z) : Z := (x + 2 ^ 31) mod 2 ^ 32 - 2 ^ 31.

Section ArgsDefaulting.

(** [v1.ResourceCPU] and [v1.ResourceMemory] *)
Variables ResourceCPU ResourceMemory : string.
(** [feature.DefaultFeatureGate.Enabled(features.VolumeCapacityPriority)] *)
Variable VolumeCapacityPriority : bool.
(** [config.MaxCustomPriorityScore] *)
Variable MaxCustomPriorityScore : Z.
(** [configv1.SystemDefaulting] and [config.LeastAllocated] *)
Variables SystemDefaulting LeastAllocated : string.

Definition defaultResourceSpec : list ResourceSpec := [
  {| ResourceSpec_Name := ResourceCPU; ResourceSpec_Weight := 1 |};
  {| ResourceSpec_Name := ResourceMemory; ResourceSpec_Weight := 1 |}
].

Definition SetDefaults_DefaultPreemptionArgs (obj : DefaultPreemptionArgs)
    : DefaultPreemptionArgs :=
  let obj :=
    match MinCandidateNodesPercentage obj with
    | None => {| MinCandidateNodesPercentage := Some 10;
                 MinCandidateNodesAbsolute := MinCandidateNodesAbsolute obj |}
    | Some _ => obj
    end in
  match MinCandidateNodesAbsolute obj with
  | None => {| MinCandidateNodesPercentage := MinCandidateNodesPercentage obj;
               MinCandidateNodesAbsolute := Some 100 |}
  | Some _ => obj
  end.

Definition SetDefaults_InterPodAffinityArgs (obj : InterPodAffinityArgs)
    : InterPodAffinityArgs :=
  match HardPodAffinityWeight obj with
  | None => {| HardPodAffinityWeight := Some 1 |}
  | Some _ => obj
  end.

Definition SetDefaults_VolumeBindingArgs (obj : VolumeBindingArgs)
    : VolumeBindingArgs :=
  let obj :=
    match BindTimeoutSeconds obj with
    | None => {| BindTimeoutSeconds := Some 600; Shape := Shape obj |}
    | Some _ => obj
    end in
  if Nat.eqb (length (Shape obj)) 0 && VolumeCapacityPriority then
    {| BindTimeoutSeconds := BindTimeoutSeconds obj;
       Shape := [
         {| Utilization := 0; Score := 0 |};
         {| Utilization := 100; Score := int32 MaxCustomPriorityScore |}
       ] |}
  else obj.

(** The loops of lines 212-216 and 236-240 over a resource list. *)
Definition defaultWeights (resources : list ResourceSpec) : list ResourceSpec :=
  (fun r => if Z.eqb (ResourceSpec_Weight r) 0 then set_Weight 1 r else r)
    <$> resources.

Definition SetDefaults_NodeResourcesBalancedAllocationArgs
    (obj : NodeResourcesBalancedAllocationArgs)
    : NodeResourcesBalancedAllocationArgs :=
  if Nat.eqb (length (Resources obj)) 0 then
    {| Resources := defaultResourceSpec |}
  else
    {| Resources := defaultWeights (Resources obj) |}.

Definition SetDefaults_PodTopologySpreadArgs (obj : PodTopologySpreadArgs)
    : PodTopologySpreadArgs :=
  if String.eqb (DefaultingType obj) "" then
    {| DefaultingType := SystemDefaulting |}
  else obj.

Definition SetDefaults_NodeResourcesFitArgs (obj : NodeResourcesFitArgs)
    : NodeResourcesFitArgs :=
  let strategy :=
    match NodeResourcesFitArgs_ScoringStrategy obj with
    | None => {| ScoringStrategy_Type := LeastAllocated;
                 ScoringStrategy_Resources := defaultResourceSpec |}
    | Some s => s
    end in
  let strategy :=
    if Nat.eqb (length (ScoringStrategy_Resources strategy)) 0 then
      {| ScoringStrategy_Type := ScoringStrategy_Type strategy;
         ScoringStrategy_Resources :=
           ScoringStrategy_Resources strategy ++ defaultResourceSpec |}
    else strategy in
  let strategy :=
    {| ScoringStrategy_Type := ScoringStrategy_Type strategy;
       ScoringStrategy_Resources :=
         defaultWeights (ScoringStrategy_Resources strategy) |} in
  {| NodeResourcesFitArgs_ScoringStrategy := Some strategy |}.

End ArgsDefaulting.

(** ** Failure of the merge collaborator

    [mergePlugins] has no error result and nothing in this file recovers
    from a panic: a failure of the collaborator unwinds through
    [setDefaults_KubeSchedulerProfile] and
    [SetDefaults_KubeSchedulerConfiguration].  This is the defaulting pass
    over a merge collaborator that either fails with a value of [E] or
    returns the merged plugins. *)

Definition bindE {E S T : Type} (m : E + S) (k : S -> E + T) : E + T :=
  match m with
  | inl e => inl e
  | inr x => k x
  end.

Notation "'letE' x := m 'in' k" := (bindE m (fun x => k))
  (at level 10, x name, m at level 100, k at level 200).

Section MergeFailure.

Context {A E : Type} (X : Externals A).
Variable mergePlugins_E : option Plugins -> option Plugins -> E + option Plugins.

Definition setDefaults_KubeSchedulerProfile_E (prof : KubeSchedulerProfile A)
    : E + KubeSchedulerProfile A :=
  letE plugins := mergePlugins_E (getDefaultPlugins X) (Profile_Plugins prof) in
  inr (completePluginConfig X plugins prof).

(** The loop of lines 118-121. *)
Fixpoint defaultProfiles_E (profiles : list (KubeSchedulerProfile A))
    : E + list (KubeSchedulerProfile A) :=
  match profiles with
  | [] => inr []
  | prof :: rest =>
    letE prof' := setDefaults_KubeSchedulerProfile_E prof in
    letE rest' := defaultProfiles_E rest in
    inr (prof' :: rest')
  end.

Definition SetDefaults_KubeSchedulerConfiguration_E
    (obj : KubeSchedulerConfiguration A) : E + KubeSchedulerConfiguration A :=
  let obj := defaultProfileList X obj in
  letE profiles := defaultProfiles_E (Profiles obj) in
  inr (defaultScalars X (set_Profiles profiles obj)).

End MergeFailure.

(** ** Contracts of the collaborators *)

(** [mergePlugins] is idempotent on an already merged pipeline. *)
Definition merge_idempotent {A} (X : Externals A) : Prop :=
  forall custom,
    mergePlugins X (getDefaultPlugins X)
                 (mergePlugins X (getDefaultPlugins X) custom)
    = mergePlugins X (getDefaultPlugins X) custom.

(** The defaulting functions registered in the scheme are idempotent. *)
Definition default_idempotent {A} (scheme : Scheme A) : Prop :=
  forall a, scheme_Default scheme (scheme_Default scheme a) = scheme_Default scheme a.

(** The recommended leader-election defaults only fill in: they keep a
    resource lock, name and namespace that is set, and running them again
    changes nothing. *)
Record leader_election_fill_in
    (f : LeaderElectionConfiguration -> LeaderElectionConfiguration) : Prop := {
  fill_in_idempotent : forall l, f (f l) = f l;
  fill_in_ResourceLock :
    forall l, len_is_0 (ResourceLock l) = false -> ResourceLock (f l) = ResourceLock l;
  fill_in_ResourceNamespace :
    forall l, len_is_0 (ResourceNamespace l) = false ->
              ResourceNamespace (f l) = ResourceNamespace l;
  fill_in_ResourceName :
    forall l, len_is_0 (ResourceName l) = false -> ResourceName (f l) = ResourceName l
}.

(** ** Predicates used in the statements *)

(** The names of the entries of a [PluginConfig] list. *)
Definition configNames {A} (configs : list (PluginConfig A)) : list string :=
  PluginConfig_Name <$> configs.

(** The number of entries of a [PluginConfig] list with a given name. *)
Definition countConfigs {A} (name : string) (configs : list (PluginConfig A)) : nat :=
  length (filter (fun pc => PluginConfig_Name pc = name) configs).

(** The enabled plugins of every extension point, in the order in which
    [pluginsNames] visits them. *)
Definition enabledPlugins (p : Plugins) : list Plugin :=
  PluginSet_Enabled (Plugins_MultiPoint p) ++
  PluginSet_Enabled (Plugins_PreFilter p) ++
  PluginSet_Enabled (Plugins_Filter p) ++
  PluginSet_Enabled (Plugins_PostFilter p) ++
  PluginSet_Enabled (Plugins_Reserve p) ++
  PluginSet_Enabled (Plugins_PreScore p) ++
  PluginSet_Enabled (Plugins_Score p) ++
  PluginSet_Enabled (Plugins_PreBind p) ++
  PluginSet_Enabled (Plugins_Bind p) ++
  PluginSet_Enabled (Plugins_PostBind p) ++
  PluginSet_Enabled (Plugins_Permit p) ++
  PluginSet_Enabled (Plugins_QueueSort p).

(** A plugin name is enabled at some extension point of a pipeline. *)
Definition enabledIn (name : string) (p : option Plugins) : Prop :=
  match p with
  | None => False
  | Some p => name ∈ Plugin_Name <$> enabledPlugins p
  end.

#[global] Instance enabledIn_dec (name : string) (p : option Plugins) :
  Decision (enabledIn name p).
Proof. destruct p; simpl; apply _. Defined.

(** The scheme has a type for the arguments of a plugin. *)
Definition hasArgsType {A} (X : Externals A) (name : string) : Prop :=
  is_Some (scheme_New (GetPluginArgConversionScheme X)
                      (WithKind (SchemeGroupVersion X) (name ++ "Args"))).

#[global] Instance hasArgsType_dec {A} (X : Externals A) (name : string) :
  Decision (hasArgsType X name).
Proof. unfold hasArgsType. apply _. Defined.

(** The entry appended for a plugin whose argument type is known. *)
Definition defaultConfigFor {A} (X : Externals A) (name : string) (a : A)
    : PluginConfig A :=
  let gvk := WithKind (SchemeGroupVersion X) (name ++ "Args") in
  {| PluginConfig_Name := name;
     PluginConfig_Args :=
       {| Raw := "";
          RawExtension_Object :=
            Typed gvk (scheme_Default (GetPluginArgConversionScheme X) a) |} |}.

(** The entries that the loop of lines 83-99 appends for a list of names. *)
Definition newConfigs {A} (X : Externals A) (existingConfigs : gset string)
    (names : list string) : list (PluginConfig A) :=
  omap (fun name =>
          if StringSet.Has existingConfigs name then None
          else defaultConfigFor X name <$>
                 scheme_New (GetPluginArgConversionScheme X)
                            (WithKind (SchemeGroupVersion X) (name ++ "Args")))
       names.

(** ** The fields of a defaulted configuration, field by field *)

(** What lines 127-138 make of the leader-election configuration. *)
Definition fillLeaderElection {A} (X : Externals A) (l : LeaderElectionConfiguration)
    : LeaderElectionConfiguration :=
  let l := if len_is_0 (ResourceLock l) then set_ResourceLock "leases" l else l in
  let l :=
    if len_is_0 (ResourceNamespace l)
    then set_ResourceNamespace (SchedulerDefaultLockObjectNamespace X) l else l in
  if len_is_0 (ResourceName l)
  then set_ResourceName (SchedulerDefaultLockObjectName X) l else l.

(** What lines 140-149 make of the client connection. *)
Definition fillClientConnection (c : ClientConnectionConfiguration)
    : ClientConnectionConfiguration :=
  let c :=
    if len_is_0 (ContentType c)
    then set_ContentType "application/vnd.kubernetes.protobuf" c else c in
  let c := if PrimFloat.eqb (QPS c) 0%float then set_QPS 50%float c else c in
  if Z.eqb (Burst c) 0 then set_Burst 100 c else c.

(** What lines 108-115 make of the profile list. *)
Definition fillProfileList {A} (X : Externals A) (profiles : list (KubeSchedulerProfile A))
    : list (KubeSchedulerProfile A) :=
  match profiles with
  | [] => [ {| SchedulerName := Some (DefaultSchedulerName X);
               Profile_Plugins := None; Profile_PluginConfig := [] |} ]
  | [p] =>
    match SchedulerName p with
    | None => [set_SchedulerName (Some (DefaultSchedulerName X)) p]
    | Some _ => [p]
    end
  | _ => profiles
  end.

(** ** An instance of the collaborators

    A scheme that registers the six argument structs defaulted in this
    file under their kinds, with this file's functions as their
    defaulting functions, a small default plugin set and a merge that lets
    the custom plugins of an extension point replace and disable default
    ones.  The functions above are run on it. *)

Module InTree.

Inductive PluginArgs : Type :=
| DefaultPreemption (a : DefaultPreemptionArgs)
| InterPodAffinity (a : InterPodAffinityArgs)
| VolumeBinding (a : VolumeBindingArgs)
| NodeResourcesBalancedAllocation (a : NodeResourcesBalancedAllocationArgs)
| PodTopologySpread (a : PodTopologySpreadArgs)
| NodeResourcesFit (a : NodeResourcesFitArgs).

Definition groupVersion : GroupVersion :=
  {| GroupVersion_Group := "kubescheduler.config.k8s.io";
     GroupVersion_Version := "v1" |}.

Definition maxCustomPriorityScore : Z := 10.

Definition newArgs (gvk : GroupVersionKind) : option PluginArgs :=
  if negb (String.eqb (Group gvk) (GroupVersion_Group groupVersion)
           && String.eqb (Version gvk) (GroupVersion_Version groupVersion))
  then None
  else if String.eqb (Kind gvk) "DefaultPreemptionArgs" then
    Some (DefaultPreemption
            {| MinCandidateNodesPercentage := None;
               MinCandidateNodesAbsolute := None |})
  else if String.eqb (Kind gvk) "InterPodAffinityArgs" then
    Some (InterPodAffinity {| HardPodAffinityWeight := None |})
  else if String.eqb (Kind gvk) "VolumeBindingArgs" then
    Some (VolumeBinding {| BindTimeoutSeconds := None; Shape := [] |})
  else if String.eqb (Kind gvk) "NodeResourcesBalancedAllocationArgs" then
    Some (NodeResourcesBalancedAllocation {| Resources := [] |})
  else if String.eqb (Kind gvk) "PodTopologySpreadArgs" then
    Some (PodTopologySpread {| DefaultingType := "" |})
  else if String.eqb (Kind gvk) "NodeResourcesFitArgs" then
    Some (NodeResourcesFit {| NodeResourcesFitArgs_ScoringStrategy := None |})
  else None.

Definition defaultArgs (gate : bool) (a : PluginArgs) : PluginArgs :=
  match a with
  | DefaultPreemption a => DefaultPreemption (SetDefaults_DefaultPreemptionArgs a)
  | InterPodAffinity a => InterPodAffinity (SetDefaults_InterPodAffinityArgs a)
  | VolumeBinding a =>
    VolumeBinding (SetDefaults_VolumeBindingArgs gate maxCustomPriorityScore a)
  | NodeResourcesBalancedAllocation a =>
    NodeResourcesBalancedAllocation
      (SetDefaults_NodeResourcesBalancedAllocationArgs "cpu" "memory" a)
  | PodTopologySpread a =>
    PodTopologySpread (SetDefaults_PodTopologySpreadArgs "System" a)
  | NodeResourcesFit a =>
    NodeResourcesFit (SetDefaults_NodeResourcesFitArgs "cpu" "memory" "LeastAllocated" a)
  end.

Definition scheme (gate : bool) : Scheme PluginArgs :=
  {| scheme_New := newArgs; scheme_Default := defaultArgs gate |}.

Definition pluginNames (l : list Plugin) : list string := Plugin_Name <$> l.

(** The enabled default plugins that the custom set neither disables nor
    enables itself, followed by the custom enabled plugins. *)
Definition mergeSet (d c : PluginSet) : PluginSet :=
  {| PluginSet_Enabled :=
       filter (fun pg => (Plugin_Name pg ∉ pluginNames (PluginSet_Disabled c))
                         ∧ (Plugin_Name pg ∉ pluginNames (PluginSet_Enabled c)))
              (PluginSet_Enabled d)
       ++ PluginSet_Enabled c;
     PluginSet_Disabled := PluginSet_Disabled c |}.

Definition merge (defaultPlugins customPlugins : option Plugins) : option Plugins :=
  match defaultPlugins, customPlugins with
  | _, None => defaultPlugins
  | None, Some _ => customPlugins
  | Some d, Some c =>
    Some {|
      Plugins_QueueSort := mergeSet (Plugins_QueueSort d) (Plugins_QueueSort c);
      Plugins_PreFilter := mergeSet (Plugins_PreFilter d) (Plugins_PreFilter c);
      Plugins_Filter := mergeSet (Plugins_Filter d) (Plugins_Filter c);
      Plugins_PostFilter := mergeSet (Plugins_PostFilter d) (Plugins_PostFilter c);
      Plugins_PreScore := mergeSet (Plugins_PreScore d) (Plugins_PreScore c);
      Plugins_Score := mergeSet (Plugins_Score d) (Plugins_Score c);
      Plugins_Reserve := mergeSet (Plugins_Reserve d) (Plugins_Reserve c);
      Plugins_Permit := mergeSet (Plugins_Permit d) (Plugins_Permit c);
      Plugins_PreBind := mergeSet (Plugins_PreBind d) (Plugins_PreBind c);
      Plugins_Bind := mergeSet (Plugins_Bind d) (Plugins_Bind c);
      Plugins_PostBind := mergeSet (Plugins_PostBind d) (Plugins_PostBind c);
      Plugins_MultiPoint := mergeSet (Plugins_MultiPoint d) (Plugins_MultiPoint c)
    |}
  end.

Definition noPlugins : PluginSet :=
  {| PluginSet_Enabled := []; PluginSet_Disabled := [] |}.

Definition plugin (name : string) : Plugin :=
  {| Plugin_Name := name; Plugin_Weight := None |}.

Definition multiPoint (enabled : list Plugin) : Plugins :=
  {| Plugins_QueueSort := noPlugins; Plugins_PreFilter := noPlugins;
     Plugins_Filter := noPlugins; Plugins_PostFilter := noPlugins;
     Plugins_PreScore := noPlugins; Plugins_Score := noPlugins;
     Plugins_Reserve := noPlugins; Plugins_Permit := noPlugins;
     Plugins_PreBind := noPlugins; Plugins_Bind := noPlugins;
     Plugins_PostBind := noPlugins;
     Plugins_MultiPoint :=
       {| PluginSet_Enabled := enabled; PluginSet_Disabled := [] |} |}.

Definition defaultPlugins : Plugins :=
  multiPoint [
    plugin "PrioritySort";
    plugin "NodeResourcesFit";
    plugin "VolumeBinding";
    plugin "DefaultPreemption";
    plugin "DefaultBinder"
  ].

(** The recommended leader-election defaults: fill in the unset fields. *)
Definition recommendedLeaderElection (l : LeaderElectionConfiguration)
    : LeaderElectionConfiguration :=
  {| LeaderElect := match LeaderElect l with None => Some true | v => v end;
     LeaseDuration := if Z.eqb (LeaseDuration l) 0 then 15000000000 else LeaseDuration l;
     RenewDeadline := if Z.eqb (RenewDeadline l) 0 then 10000000000 else RenewDeadline l;
     RetryPeriod := if Z.eqb (RetryPeriod l) 0 then 2000000000 else RetryPeriod l;
     ResourceLock := if len_is_0 (ResourceLock l) then "leases" else ResourceLock l;
     ResourceName := ResourceName l;
     ResourceNamespace := ResourceNamespace l |}.

Definition externals (gate : bool) : Externals PluginArgs :=
  {| DefaultSchedulerName := "default-scheduler";
     DefaultPercentageOfNodesToScore := 0;
     SchedulerDefaultLockObjectNamespace := "kube-system";
     SchedulerDefaultLockObjectName := "kube-scheduler";
     SchemeGroupVersion := groupVersion;
     getDefaultPlugins := Some defaultPlugins;
     mergePlugins := merge;
     GetPluginArgConversionScheme := scheme gate;
     RecommendedDefaultLeaderElectionConfiguration := recommendedLeaderElection |}.

(** A profile that enables the out-of-tree plugin [Foo] and configures it
    with arguments the scheme has no type for. *)
Definition fooProfile : KubeSchedulerProfile PluginArgs :=
  {| SchedulerName := Some "foo-scheduler";
     Profile_Plugins := Some (multiPoint [plugin "Foo"]);
     Profile_PluginConfig := [
       {| PluginConfig_Name := "Foo";
          PluginConfig_Args :=
            {| Raw := "";
               RawExtension_Object :=
                 Unknown {| Group := ""; Version := ""; Kind := "FooArgs" |}
                         "{}" |} |}
     ] |}.

(** A profile that configures the in-tree plugin [VolumeBinding] itself and
    enables it once more at the filter extension point. *)
Definition customProfile : KubeSchedulerProfile PluginArgs :=
  {| SchedulerName := None;
     Profile_Plugins :=
       Some {| Plugins_QueueSort := noPlugins; Plugins_PreFilter := noPlugins;
               Plugins_Filter :=
                 {| PluginSet_Enabled := [plugin "VolumeBinding"; plugin "Foo"];
                    PluginSet_Disabled := [] |};
               Plugins_PostFilter := noPlugins;
               Plugins_PreScore := noPlugins; Plugins_Score := noPlugins;
               Plugins_Reserve := noPlugins; Plugins_Permit := noPlugins;
               Plugins_PreBind := noPlugins; Plugins_Bind := noPlugins;
               Plugins_PostBind := noPlugins; Plugins_MultiPoint := noPlugins |};
     Profile_PluginConfig := [
       {| PluginConfig_Name := "VolumeBinding";
          PluginConfig_Args :=
            {| Raw := "";
               RawExtension_Object :=
                 Typed {| Group := "kubescheduler.config.k8s.io"; Version := "v1";
                          Kind := "VolumeBindingArgs" |}
                       (VolumeBinding {| BindTimeoutSeconds := Some 30;
                                         Shape := [] |}) |} |}
     ] |}.

End InTree.

(** * Properties *)

(** ** The order on strings *)

Module StringOrderFacts.
Import StringOrder.

Lemma ascii_compare_refl a : Ascii.compare a a = Eq.
Proof. unfold Ascii.compare. apply N.compare_refl. Qed.

Lemma ascii_compare_Lt_trans a b c :
  Ascii.compare a b = Lt -> Ascii.compare b c = Lt -> Ascii.compare a c = Lt.
Proof.
  unfold Ascii.compare. rewrite !N.compare_lt_iff. apply N.lt_trans.
Qed.

Lemma compare_refl s : String.compare s s = Eq.
Proof.
  induction s as [|a s IH]; simpl; [done|].
  by rewrite ascii_compare_refl.
Qed.

Lemma compare_Lt_trans s1 :
  forall s2 s3,
    String.compare s1 s2 = Lt -> String.compare s2 s3 = Lt ->
    String.compare s1 s3 = Lt.
Proof.
  induction s1 as [|a s1 IH]; intros [|b s2] [|c s3]; simpl; try done.
  destruct (Ascii.compare a b) eqn:Hab; try done;
    destruct (Ascii.compare b c) eqn:Hbc; try done; intros H12 H23.
  - apply Ascii.compare_eq_iff in Hab, Hbc. subst.
    rewrite ascii_compare_refl. eauto.
  - apply Ascii.compare_eq_iff in Hab. subst. by rewrite Hbc.
  - apply Ascii.compare_eq_iff in Hbc. subst. by rewrite Hab.
  - by rewrite (ascii_compare_Lt_trans a b c).
Qed.

Lemma lt_compare s1 s2 : lt s1 s2 <-> String.compare s1 s2 = Lt.
Proof. unfold lt, String.ltb. destruct (String.compare s1 s2); naive_solver. Qed.

Lemma le_lt_eq s1 s2 : le s1 s2 <-> lt s1 s2 \/ s1 = s2.
Proof.
  rewrite lt_compare. unfold le, String.leb. split.
  - destruct (String.compare s1 s2) eqn:Hc; try done; [|by left].
    right. by apply String.compare_eq_iff.
  - intros [->| ->]; [done|]. by rewrite compare_refl.
Qed.

Lemma lt_irrefl s : ~ lt s s.
Proof. rewrite lt_compare, compare_refl. done. Qed.

#[global] Instance lt_trans : Transitive lt.
Proof. intros s1 s2 s3. rewrite !lt_compare. apply compare_Lt_trans. Qed.

#[global] Instance le_trans : Transitive le.
Proof.
  intros s1 s2 s3. rewrite !le_lt_eq.
  intros [H12| ->] [H23| ->]; eauto. left. by etrans.
Qed.

#[global] Instance le_total : Total le.
Proof. intros s1 s2. apply String.leb_total. Qed.

#[global] Instance le_antisym : AntiSymm (=) le.
Proof. intros s1 s2. apply String.leb_antisym. Qed.

(** A duplicate-free list sorted by [le] is strictly sorted. *)
Lemma StronglySorted_le_lt (l : list string) :
  NoDup l -> StronglySorted le l -> StronglySorted lt l.
Proof.
  induction 2 as [|x l Hl IH Hx]; [constructor|].
  apply NoDup_cons in H as [Hnx Hnd].
  constructor; [by apply IH|].
  rewrite Forall_forall in *. intros y Hy.
  specialize (Hx y Hy). apply le_lt_eq in Hx as [Hlt| ->]; done.
Qed.

(** A strictly sorted list has no duplicates. *)
Lemma StronglySorted_lt_NoDup (l : list string) :
  StronglySorted lt l -> NoDup l.
Proof.
  induction 1 as [|x l Hl IH Hx]; [constructor|].
  apply NoDup_cons. split; [|done].
  intros Hin. rewrite Forall_forall in Hx. by apply (lt_irrefl x), Hx.
Qed.

End StringOrderFacts.

(** ** [sets.String] and [pluginsNames] *)

Section StringSetFacts.
Import StringOrder StringOrderFacts.

Lemma Has_true (s : gset string) (x : string) :
  StringSet.Has s x = true <-> x ∈ s.
Proof. unfold StringSet.Has. apply bool_decide_eq_true. Qed.

Lemma Has_false (s : gset string) (x : string) :
  StringSet.Has s x = false <-> x ∉ s.
Proof. unfold StringSet.Has. apply bool_decide_eq_false. Qed.

Lemma elem_of_List (s : gset string) (x : string) :
  x ∈ StringSet.List s <-> x ∈ s.
Proof.
  unfold StringSet.List. rewrite merge_sort_Permutation.
  apply elem_of_elements.
Qed.

Lemma List_sorted (s : gset string) : StronglySorted lt (StringSet.List s).
Proof.
  apply StronglySorted_le_lt.
  - unfold StringSet.List. rewrite merge_sort_Permutation.
    apply NoDup_elements.
  - apply StronglySorted_merge_sort; apply _.
Qed.

Lemma elem_of_insert_names {B} (f : B -> string) (l : list B) :
  forall (n : gset string) (x : string),
    x ∈ foldl (fun n b => StringSet.Insert n (f b)) n l <-> x ∈ n \/ x ∈ f <$> l.
Proof.
  induction l as [|b l IH]; intros n x; simpl.
  - rewrite elem_of_nil. tauto.
  - rewrite IH. unfold StringSet.Insert. set_solver.
Qed.

Lemma elem_of_pluginsNames (p : option Plugins) (x : string) :
  x ∈ pluginsNames p <-> enabledIn x p.
Proof.
  destruct p as [p|]; simpl; [|by rewrite elem_of_nil].
  rewrite elem_of_List. unfold enabledPlugins.
  rewrite !elem_of_insert_names, !fmap_app, !elem_of_app.
  unfold StringSet.NewString. set_solver.
Qed.

Lemma pluginsNames_sorted (p : option Plugins) :
  StronglySorted lt (pluginsNames p).
Proof.
  destruct p as [p|]; simpl; [apply List_sorted|constructor].
Qed.

Lemma pluginsNames_NoDup (p : option Plugins) : NoDup (pluginsNames p).
Proof. apply StronglySorted_lt_NoDup, pluginsNames_sorted. Qed.

End StringSetFacts.

(** ** The plugin configuration of a defaulted profile *)

Section ProfileFacts.
Import StringOrder StringOrderFacts.

Context {A : Type} (X : Externals A).

Local Abbreviation scheme := (GetPluginArgConversionScheme X).

Lemma defaultExistingArgs_Name (pc : PluginConfig A) :
  PluginConfig_Name (defaultExistingArgs scheme pc) = PluginConfig_Name pc.
Proof.
  unfold defaultExistingArgs.
  by destruct (RawExtension_Object (PluginConfig_Args pc)).
Qed.

Lemma configNames_defaultExistingArgs (configs : list (PluginConfig A)) :
  configNames (defaultExistingArgs scheme <$> configs) = configNames configs.
Proof.
  unfold configNames. rewrite <- list_fmap_compose.
  apply list_fmap_ext. intros i pc _. apply defaultExistingArgs_Name.
Qed.

Lemma defaultExistingConfigs_foldl (configs : list (PluginConfig A)) :
  forall (s : gset string) (acc : list (PluginConfig A)),
    foldl (fun st pc =>
             (StringSet.Insert st.1 (PluginConfig_Name pc),
              st.2 ++ [defaultExistingArgs scheme pc]))
          (s, acc) configs
    = (list_to_set (configNames configs) ∪ s,
       acc ++ (defaultExistingArgs scheme <$> configs)).
Proof.
  induction configs as [|pc configs IH]; intros s acc; simpl.
  - f_equal; [set_solver|by rewrite app_nil_r].
  - rewrite IH. f_equal.
    + unfold StringSet.Insert. set_solver.
    + by rewrite <- app_assoc.
Qed.

Lemma defaultExistingConfigs_eq (configs : list (PluginConfig A)) :
  defaultExistingConfigs scheme configs
  = (list_to_set (configNames configs), defaultExistingArgs scheme <$> configs).
Proof.
  unfold defaultExistingConfigs. rewrite defaultExistingConfigs_foldl.
  unfold StringSet.NewString. f_equal. set_solver.
Qed.

Lemma appendDefaultConfig_foldl (existing : gset string) (names : list string) :
  forall configs,
    foldl (appendDefaultConfig X scheme existing) configs names
    = configs ++ newConfigs X existing names.
Proof.
  induction names as [|name names IH]; intros configs; simpl.
  - by rewrite app_nil_r.
  - rewrite IH. unfold appendDefaultConfig, newConfigs, New. simpl.
    destruct (StringSet.Has existing name); [done|].
    destruct (scheme_New scheme _) as [a|]; simpl; [|done].
    by rewrite <- app_assoc.
Qed.

(** The plugin configuration after [completePluginConfig]: the given
    entries, defaulted, followed by the new entries. *)
Lemma completePluginConfig_PluginConfig plugins (prof : KubeSchedulerProfile A) :
  Profile_PluginConfig (completePluginConfig X plugins prof)
  = (defaultExistingArgs scheme <$> Profile_PluginConfig prof)
    ++ newConfigs X (list_to_set (configNames (Profile_PluginConfig prof)))
                  (pluginsNames plugins).
Proof.
  unfold completePluginConfig.
  rewrite defaultExistingConfigs_eq. simpl.
  apply appendDefaultConfig_foldl.
Qed.

Lemma completePluginConfig_Plugins plugins (prof : KubeSchedulerProfile A) :
  Profile_Plugins (completePluginConfig X plugins prof) = plugins.
Proof.
  unfold completePluginConfig.
  by destruct (defaultExistingConfigs _ _).
Qed.

Lemma completePluginConfig_SchedulerName plugins (prof : KubeSchedulerProfile A) :
  SchedulerName (completePluginConfig X plugins prof) = SchedulerName prof.
Proof.
  unfold completePluginConfig.
  by destruct (defaultExistingConfigs _ _).
Qed.

(** The names of the new entries are the names without an entry for
    which the scheme has an argument type, in the order of the list. *)
Lemma configNames_newConfigs (existing : gset string) (names : list string) :
  configNames (newConfigs X existing names)
  = filter (fun name => (name ∉ existing) ∧ hasArgsType X name) names.
Proof.
  unfold configNames, newConfigs.
  induction names as [|name names IH]; simpl; [done|].
  rewrite filter_cons.
  destruct (decide ((name ∉ existing) ∧ hasArgsType X name)) as [[Hex [a Ha]]|Hn].
  - apply Has_false in Hex. rewrite Hex, Ha. simpl. by f_equal.
  - destruct (StringSet.Has existing name) eqn:Hhas; [done|].
    apply Has_false in Hhas.
    destruct (scheme_New scheme _) as [a|] eqn:Hnew; simpl; [|done].
    exfalso. apply Hn. split; [done|]. unfold hasArgsType. by rewrite Hnew.
Qed.

Lemma StronglySorted_filter {B} (R : relation B) (P : B -> Prop)
    `{!forall x, Decision (P x)} (l : list B) :
  StronglySorted R l -> StronglySorted R (filter P l).
Proof.
  induction 1 as [|x l Hl IH Hx]; [constructor|].
  rewrite filter_cons. destruct (decide (P x)); [|done].
  constructor; [done|].
  rewrite Forall_forall in *. intros y [_ Hy]%list_elem_of_filter. auto.
Qed.

Lemma countConfigs_app (name : string) (l1 l2 : list (PluginConfig A)) :
  countConfigs name (l1 ++ l2) = (countConfigs name l1 + countConfigs name l2)%nat.
Proof. unfold countConfigs. by rewrite filter_app, length_app. Qed.

Lemma countConfigs_configNames (name : string) (l : list (PluginConfig A)) :
  countConfigs name l = length (filter (fun n => n = name) (configNames l)).
Proof.
  unfold countConfigs, configNames.
  induction l as [|pc l IH]; simpl; [done|].
  rewrite !filter_cons.
  destruct (decide (PluginConfig_Name pc = name)); simpl; by rewrite IH.
Qed.

Lemma count_NoDup (name : string) (l : list string) :
  NoDup l ->
  length (filter (fun n => n = name) l) = if decide (name ∈ l) then 1%nat else 0%nat.
Proof.
  induction 1 as [|x l Hx Hl IH].
  - destruct (decide (name ∈ [])) as [Hin|]; [by apply elem_of_nil in Hin|done].
  - rewrite filter_cons.
    destruct (decide (x = name)) as [->|Hne]; simpl; rewrite IH.
    + destruct (decide (name ∈ l)); [done|].
      destruct (decide (name ∈ name :: l)) as [|Hn]; [done|].
      exfalso. apply Hn. left.
    + destruct (decide (name ∈ l)), (decide (name ∈ x :: l)) as [Hin|Hn];
        try done.
      * exfalso. apply Hn. by right.
      * apply elem_of_cons in Hin as [->|]; done.
Qed.

End ProfileFacts.

Section ProfileClaims.
Import StringOrder StringOrderFacts.

Context {A : Type} (X : Externals A).

Local Abbreviation scheme := (GetPluginArgConversionScheme X).

Lemma setDefaults_PluginConfig (prof : KubeSchedulerProfile A) :
  Profile_PluginConfig (setDefaults_KubeSchedulerProfile X prof)
  = (defaultExistingArgs scheme <$> Profile_PluginConfig prof)
    ++ newConfigs X (list_to_set (configNames (Profile_PluginConfig prof)))
         (pluginsNames (Profile_Plugins (setDefaults_KubeSchedulerProfile X prof))).
Proof.
  unfold setDefaults_KubeSchedulerProfile.
  by rewrite completePluginConfig_Plugins, completePluginConfig_PluginConfig.
Qed.

Lemma take_existing (prof : KubeSchedulerProfile A) :
  take (length (Profile_PluginConfig prof))
       (Profile_PluginConfig (setDefaults_KubeSchedulerProfile X prof))
  = defaultExistingArgs scheme <$> Profile_PluginConfig prof.
Proof.
  rewrite setDefaults_PluginConfig.
  rewrite take_app_length'; [done|]. by rewrite length_fmap.
Qed.

Lemma drop_existing (prof : KubeSchedulerProfile A) :
  drop (length (Profile_PluginConfig prof))
       (Profile_PluginConfig (setDefaults_KubeSchedulerProfile X prof))
  = newConfigs X (list_to_set (configNames (Profile_PluginConfig prof)))
      (pluginsNames (Profile_Plugins (setDefaults_KubeSchedulerProfile X prof))).
Proof.
  rewrite setDefaults_PluginConfig at 1.
  rewrite drop_app_length'; [done|]. by rewrite length_fmap.
Qed.

Lemma lookup_existing (prof : KubeSchedulerProfile A) (j : nat) (pc : PluginConfig A) :
  Profile_PluginConfig prof !! j = Some pc ->
  Profile_PluginConfig (setDefaults_KubeSchedulerProfile X prof) !! j
  = Some (defaultExistingArgs scheme pc).
Proof.
  intros Hj. rewrite setDefaults_PluginConfig.
  rewrite lookup_app_l by (rewrite length_fmap; by eapply lookup_lt_Some).
  by rewrite list_lookup_fmap, Hj.
Qed.

Lemma countConfigs_setDefaults (prof : KubeSchedulerProfile A) (name : string) :
  countConfigs name (Profile_PluginConfig (setDefaults_KubeSchedulerProfile X prof))
  = (countConfigs name (Profile_PluginConfig prof)
     + if decide (enabledIn name (Profile_Plugins (setDefaults_KubeSchedulerProfile X prof))
                  ∧ (name ∉ configNames (Profile_PluginConfig prof))
                  ∧ hasArgsType X name)
       then 1 else 0)%nat.
Proof.
  rewrite setDefaults_PluginConfig at 1. rewrite countConfigs_app. f_equal.
  - by rewrite !countConfigs_configNames, configNames_defaultExistingArgs.
  - rewrite countConfigs_configNames, configNames_newConfigs.
    rewrite count_NoDup by apply NoDup_filter, pluginsNames_NoDup.
    apply decide_ext.
    rewrite list_elem_of_filter, elem_of_pluginsNames, elem_of_list_to_set.
    tauto.
Qed.


(** C8: an entry of [PluginConfig] whose object is a [*runtime.Unknown]
    is the same entry at the same position after
    [setDefaults_KubeSchedulerProfile]; and for a plugin name for which
    the scheme has no argument type no entry is appended: the entries
    under that name are as many as before.  The function is total: it
    returns a profile for every input. *)
Theorem C8_unknown_untouched_missing_type_skipped (prof : KubeSchedulerProfile A) :
  let configs := Profile_PluginConfig prof in
  let configs' := Profile_PluginConfig (setDefaults_KubeSchedulerProfile X prof) in
  (forall j pc gvk raw,
      configs !! j = Some pc ->
      RawExtension_Object (PluginConfig_Args pc) = Unknown gvk raw ->
      configs' !! j = Some pc)
  ∧ (forall name, ~ hasArgsType X name ->
       (name ∉ configNames (drop (length configs) configs'))
       ∧ countConfigs name configs' = countConfigs name configs).
Proof.
  intros configs configs'. subst configs configs'. split.
  - intros j pc gvk raw Hj Hunknown. rewrite (lookup_existing _ _ _ Hj).
    unfold defaultExistingArgs. by rewrite Hunknown.
  - intros name Hno. split.
    + rewrite drop_existing, configNames_newConfigs, list_elem_of_filter. tauto.
    + rewrite countConfigs_setDefaults. rewrite decide_False by tauto. lia.
Qed.

(** C2 (amended): when the names of the given [PluginConfig] entries are
    distinct, after [setDefaults_KubeSchedulerProfile] every plugin name
    enabled at some extension point of the profile's pipeline for which
    the scheme has an argument type has exactly one entry; for a name
    for which the scheme has no argument type no entry is added, so it has
    the entries it had before. *)
Theorem C2_completeness (prof : KubeSchedulerProfile A) (name : string) :
  NoDup (configNames (Profile_PluginConfig prof)) ->
  let prof' := setDefaults_KubeSchedulerProfile X prof in
  enabledIn name (Profile_Plugins prof') ->
  (hasArgsType X name -> countConfigs name (Profile_PluginConfig prof') = 1%nat)
  ∧ (~ hasArgsType X name ->
     countConfigs name (Profile_PluginConfig prof')
     = countConfigs name (Profile_PluginConfig prof)).
Proof.
  intros Hnodup prof' Henabled. subst prof'.
  rewrite countConfigs_setDefaults. split.
  - intros Hargs. rewrite countConfigs_configNames, (count_NoDup _ _ Hnodup).
    destruct (decide (name ∈ configNames (Profile_PluginConfig prof))).
    + rewrite decide_False by tauto. done.
    + rewrite decide_True by tauto. done.
  - intros Hno. rewrite decide_False by tauto. lia.
Qed.

End ProfileClaims.

(** The out-of-tree plugin [Foo] is enabled in the defaulted [fooProfile]
    and the scheme has no type [FooArgs], yet the entry given for [Foo] is
    still there: a name without an argument type can have an entry. *)
Lemma C2_counterexample :
  let X := InTree.externals true in
  let prof' := setDefaults_KubeSchedulerProfile X InTree.fooProfile in
  NoDup (configNames (Profile_PluginConfig InTree.fooProfile))
  ∧ ~ (enabledIn "Foo" (Profile_Plugins prof') ->
       (hasArgsType X "Foo" ->
        countConfigs "Foo" (Profile_PluginConfig prof') = 1%nat)
       ∧ (~ hasArgsType X "Foo" ->
          countConfigs "Foo" (Profile_PluginConfig prof') = 0%nat)).
Proof.
  intros X prof'. split.
  - apply (bool_decide_unpack _). by vm_compute.
  - intros H. destruct H as [_ H].
    + apply (bool_decide_unpack _). by vm_compute.
    + assert (Hno : ~ hasArgsType X "Foo").
      { apply (bool_decide_unpack _). by vm_compute. }
      specialize (H Hno). vm_compute in H. discriminate.
Qed.

Lemma C2_completeness_witness :
  countConfigs "VolumeBinding"
    (Profile_PluginConfig
       (setDefaults_KubeSchedulerProfile (InTree.externals true) InTree.fooProfile))
  = 1%nat.
Proof.
  apply (C2_completeness (InTree.externals true) InTree.fooProfile "VolumeBinding").
  - apply (bool_decide_unpack _). by vm_compute.
  - apply (bool_decide_unpack _). by vm_compute.
  - apply (bool_decide_unpack _). by vm_compute.
Defined.

(** ** The fields of a defaulted configuration *)

Ltac head_of t :=
  lazymatch t with
  | ?f _ => head_of f
  | _ => t
  end.

(** [f (step obj) = f obj] for a statement [step] that does not assign the
    field [f]. *)
Ltac frame f :=
  repeat match goal with
  | |- context [f (?step ?obj)] =>
    let H := fresh "Hframe" in
    let h := head_of step in
    assert (H : forall o, f (step o) = f o)
      by (intros ?; unfold h; repeat case_match; simpl; congruence);
    rewrite (H obj); clear H
  end.

Section ConfigFacts.

Context {A : Type} (X : Externals A).

Lemma defaultProfiles_Profiles (obj : KubeSchedulerConfiguration A) :
  Profiles (defaultProfiles obj)
  = match Profiles obj with
    | [] => [ {| SchedulerName := None; Profile_Plugins := None;
                 Profile_PluginConfig := [] |} ]
    | _ => Profiles obj
    end.
Proof. unfold defaultProfiles. by destruct (Profiles obj) eqn:Hps. Qed.

Lemma defaultSchedulerName_Profiles (obj : KubeSchedulerConfiguration A) :
  Profiles (defaultSchedulerName X obj)
  = match Profiles obj with
    | [p] =>
      match SchedulerName p with
      | None => [set_SchedulerName (Some (DefaultSchedulerName X)) p]
      | Some _ => [p]
      end
    | _ => Profiles obj
    end.
Proof.
  unfold defaultSchedulerName.
  destruct (Profiles obj) as [|p [|q ps]] eqn:Hps; simpl; try done.
  by destruct (SchedulerName p).
Qed.

Lemma defaultProfileList_Profiles (obj : KubeSchedulerConfiguration A) :
  Profiles (defaultProfileList X obj) = fillProfileList X (Profiles obj).
Proof.
  unfold defaultProfileList. cbv zeta.
  rewrite defaultSchedulerName_Profiles, defaultProfiles_Profiles.
  frame (@Profiles A).
  by destruct (Profiles obj) as [|p [|q ps]].
Qed.

Lemma SetDefaults_Profiles (obj : KubeSchedulerConfiguration A) :
  Profiles (SetDefaults_KubeSchedulerConfiguration X obj)
  = setDefaults_KubeSchedulerProfile X <$> fillProfileList X (Profiles obj).
Proof.
  unfold SetDefaults_KubeSchedulerConfiguration, defaultScalars. cbv zeta.
  frame (@Profiles A). simpl. by rewrite defaultProfileList_Profiles.
Qed.

Ltac unfold_SetDefaults :=
  unfold SetDefaults_KubeSchedulerConfiguration, defaultScalars, defaultProfileList;
  cbv zeta.

Lemma SetDefaults_Parallelism (obj : KubeSchedulerConfiguration A) :
  Parallelism (SetDefaults_KubeSchedulerConfiguration X obj)
  = Some (default 16 (Parallelism obj)).
Proof.
  unfold_SetDefaults. frame (@Parallelism A). simpl. frame (@Parallelism A).
  unfold defaultParallelism. by destruct (Parallelism obj) eqn:?.
Qed.

Lemma defaultPercentageOfNodesToScore_field (obj : KubeSchedulerConfiguration A) :
  PercentageOfNodesToScore (defaultPercentageOfNodesToScore X obj)
  = Some (default (DefaultPercentageOfNodesToScore X) (PercentageOfNodesToScore obj)).
Proof.
  unfold defaultPercentageOfNodesToScore.
  by destruct (PercentageOfNodesToScore obj) eqn:?.
Qed.

Lemma defaultPodInitialBackoffSeconds_field (obj : KubeSchedulerConfiguration A) :
  PodInitialBackoffSeconds (defaultPodInitialBackoffSeconds obj)
  = Some (default 1 (PodInitialBackoffSeconds obj)).
Proof.
  unfold defaultPodInitialBackoffSeconds.
  by destruct (PodInitialBackoffSeconds obj) eqn:?.
Qed.

Lemma defaultPodMaxBackoffSeconds_field (obj : KubeSchedulerConfiguration A) :
  PodMaxBackoffSeconds (defaultPodMaxBackoffSeconds obj)
  = Some (default 10 (PodMaxBackoffSeconds obj)).
Proof.
  unfold defaultPodMaxBackoffSeconds.
  by destruct (PodMaxBackoffSeconds obj) eqn:?.
Qed.

Lemma defaultEnableProfiling_field (obj : KubeSchedulerConfiguration A) :
  EnableProfiling (defaultEnableProfiling obj)
  = Some (default true (EnableProfiling obj)).
Proof.
  unfold defaultEnableProfiling.
  by destruct (EnableProfiling obj) eqn:?.
Qed.

Lemma defaultEnableContentionProfiling_field (obj : KubeSchedulerConfiguration A) :
  EnableContentionProfiling (defaultEnableContentionProfiling obj)
  = match EnableContentionProfiling obj with
    | Some c => Some c
    | None =>
      match EnableProfiling obj with
      | Some true => Some true
      | _ => None
      end
    end.
Proof.
  unfold defaultEnableContentionProfiling.
  destruct (EnableProfiling obj) as [[]|] eqn:?,
           (EnableContentionProfiling obj) eqn:?; simpl; congruence.
Qed.

Lemma defaultResourceLock_field (obj : KubeSchedulerConfiguration A) :
  LeaderElection (defaultResourceLock obj)
  = let l := LeaderElection obj in
    if len_is_0 (ResourceLock l) then set_ResourceLock "leases" l else l.
Proof. unfold defaultResourceLock. simpl. by case_match. Qed.

Lemma defaultResourceNamespace_field (obj : KubeSchedulerConfiguration A) :
  LeaderElection (defaultResourceNamespace X obj)
  = let l := LeaderElection obj in
    if len_is_0 (ResourceNamespace l)
    then set_ResourceNamespace (SchedulerDefaultLockObjectNamespace X) l else l.
Proof. unfold defaultResourceNamespace. simpl. by case_match. Qed.

Lemma defaultResourceName_field (obj : KubeSchedulerConfiguration A) :
  LeaderElection (defaultResourceName X obj)
  = let l := LeaderElection obj in
    if len_is_0 (ResourceName l)
    then set_ResourceName (SchedulerDefaultLockObjectName X) l else l.
Proof. unfold defaultResourceName. simpl. by case_match. Qed.

Lemma defaultContentType_field (obj : KubeSchedulerConfiguration A) :
  ClientConnection (defaultContentType obj)
  = let c := ClientConnection obj in
    if len_is_0 (ContentType c)
    then set_ContentType "application/vnd.kubernetes.protobuf" c else c.
Proof. unfold defaultContentType. simpl. by case_match. Qed.

Lemma defaultQPS_field (obj : KubeSchedulerConfiguration A) :
  ClientConnection (defaultQPS obj)
  = let c := ClientConnection obj in
    if PrimFloat.eqb (QPS c) 0%float then set_QPS 50%float c else c.
Proof. unfold defaultQPS. simpl. by case_match. Qed.

Lemma defaultBurst_field (obj : KubeSchedulerConfiguration A) :
  ClientConnection (defaultBurst obj)
  = let c := ClientConnection obj in
    if Z.eqb (Burst c) 0 then set_Burst 100 c else c.
Proof. unfold defaultBurst. simpl. by case_match. Qed.

Lemma SetDefaults_PercentageOfNodesToScore (obj : KubeSchedulerConfiguration A) :
  PercentageOfNodesToScore (SetDefaults_KubeSchedulerConfiguration X obj)
  = Some (default (DefaultPercentageOfNodesToScore X) (PercentageOfNodesToScore obj)).
Proof.
  unfold_SetDefaults. frame (@PercentageOfNodesToScore A).
  rewrite defaultPercentageOfNodesToScore_field. simpl.
  by frame (@PercentageOfNodesToScore A).
Qed.

Lemma SetDefaults_PodInitialBackoffSeconds (obj : KubeSchedulerConfiguration A) :
  PodInitialBackoffSeconds (SetDefaults_KubeSchedulerConfiguration X obj)
  = Some (default 1 (PodInitialBackoffSeconds obj)).
Proof.
  unfold_SetDefaults. frame (@PodInitialBackoffSeconds A).
  rewrite defaultPodInitialBackoffSeconds_field.
  frame (@PodInitialBackoffSeconds A). simpl.
  by frame (@PodInitialBackoffSeconds A).
Qed.

Lemma SetDefaults_PodMaxBackoffSeconds (obj : KubeSchedulerConfiguration A) :
  PodMaxBackoffSeconds (SetDefaults_KubeSchedulerConfiguration X obj)
  = Some (default 10 (PodMaxBackoffSeconds obj)).
Proof.
  unfold_SetDefaults. frame (@PodMaxBackoffSeconds A).
  rewrite defaultPodMaxBackoffSeconds_field.
  frame (@PodMaxBackoffSeconds A). simpl.
  by frame (@PodMaxBackoffSeconds A).
Qed.

Lemma SetDefaults_EnableProfiling (obj : KubeSchedulerConfiguration A) :
  EnableProfiling (SetDefaults_KubeSchedulerConfiguration X obj)
  = Some (default true (EnableProfiling obj)).
Proof.
  unfold_SetDefaults. frame (@EnableProfiling A).
  rewrite defaultEnableProfiling_field.
  frame (@EnableProfiling A). simpl.
  by frame (@EnableProfiling A).
Qed.

Lemma SetDefaults_EnableContentionProfiling (obj : KubeSchedulerConfiguration A) :
  EnableContentionProfiling (SetDefaults_KubeSchedulerConfiguration X obj)
  = match EnableContentionProfiling obj with
    | Some c => Some c
    | None => if default true (EnableProfiling obj) then Some true else None
    end.
Proof.
  unfold_SetDefaults.
  rewrite defaultEnableContentionProfiling_field, defaultEnableProfiling_field.
  frame (@EnableContentionProfiling A). frame (@EnableProfiling A). simpl.
  frame (@EnableContentionProfiling A). frame (@EnableProfiling A).
  by destruct (EnableContentionProfiling obj), (EnableProfiling obj) as [[]|].
Qed.

Lemma SetDefaults_LeaderElection (obj : KubeSchedulerConfiguration A) :
  LeaderElection (SetDefaults_KubeSchedulerConfiguration X obj)
  = RecommendedDefaultLeaderElectionConfiguration X
      (fillLeaderElection X (LeaderElection obj)).
Proof.
  unfold_SetDefaults. frame (@LeaderElection A).
  unfold defaultLeaderElection at 1. cbn [LeaderElection set_LeaderElection].
  f_equal. frame (@LeaderElection A).
  rewrite defaultResourceName_field, defaultResourceNamespace_field,
    defaultResourceLock_field.
  frame (@LeaderElection A). cbn [LeaderElection set_Profiles].
  by frame (@LeaderElection A).
Qed.

Lemma SetDefaults_ClientConnection (obj : KubeSchedulerConfiguration A) :
  ClientConnection (SetDefaults_KubeSchedulerConfiguration X obj)
  = fillClientConnection (ClientConnection obj).
Proof.
  unfold_SetDefaults. frame (@ClientConnection A).
  rewrite defaultBurst_field, defaultQPS_field, defaultContentType_field.
  frame (@ClientConnection A). cbn [ClientConnection set_Profiles].
  by frame (@ClientConnection A).
Qed.

End ConfigFacts.

(** ** The top-level configuration *)

Section ConfigClaims.

Context {A : Type} (X : Externals A).

Lemma setDefaults_SchedulerName (prof : KubeSchedulerProfile A) :
  SchedulerName (setDefaults_KubeSchedulerProfile X prof) = SchedulerName prof.
Proof. apply completePluginConfig_SchedulerName. Qed.

Lemma SetDefaults_SchedulerNames (obj : KubeSchedulerConfiguration A) :
  SchedulerName <$> Profiles (SetDefaults_KubeSchedulerConfiguration X obj)
  = SchedulerName <$> fillProfileList X (Profiles obj).
Proof.
  rewrite SetDefaults_Profiles, <- list_fmap_compose.
  apply list_fmap_ext. intros i p _. apply setDefaults_SchedulerName.
Qed.

(** C3: after [SetDefaults_KubeSchedulerConfiguration] the profile list is
    not empty; a configuration with exactly one profile and no scheduler
    name gets the default scheduler name, one with exactly one named
    profile keeps the name, one without profiles gets one profile with the
    default name, and with two or more profiles all scheduler names stay as
    they are. *)
Theorem C3_single_profile_scheduler_name (obj : KubeSchedulerConfiguration A) :
  let obj' := SetDefaults_KubeSchedulerConfiguration X obj in
  Profiles obj' <> []
  ∧ (forall p, Profiles obj = [p] -> SchedulerName p = None ->
       SchedulerName <$> Profiles obj' = [Some (DefaultSchedulerName X)])
  ∧ (forall p name, Profiles obj = [p] -> SchedulerName p = Some name ->
       SchedulerName <$> Profiles obj' = [Some name])
  ∧ (Profiles obj = [] ->
       SchedulerName <$> Profiles obj' = [Some (DefaultSchedulerName X)])
  ∧ ((2 <= length (Profiles obj))%nat ->
       SchedulerName <$> Profiles obj' = SchedulerName <$> Profiles obj).
Proof.
  intros obj'. subst obj'. rewrite SetDefaults_SchedulerNames. repeat split.
  - rewrite SetDefaults_Profiles.
    destruct (Profiles obj) as [|p [|q ps]]; simpl; try done.
    by destruct (SchedulerName p).
  - intros p -> Hname. simpl. by rewrite Hname.
  - intros p name -> Hname. simpl. rewrite Hname. simpl. by rewrite Hname.
  - by intros ->.
  - destruct (Profiles obj) as [|p [|q ps]]; simpl; [lia|lia|done].
Qed.

Lemma ResourceLock_fillLeaderElection (l : LeaderElectionConfiguration) :
  ResourceLock (fillLeaderElection X l)
  = if len_is_0 (ResourceLock l) then "leases" else ResourceLock l.
Proof.
  unfold fillLeaderElection. cbv zeta.
  repeat (case_match; simpl in *); congruence.
Qed.

Lemma QPS_fillClientConnection (c : ClientConnectionConfiguration) :
  QPS (fillClientConnection c)
  = if PrimFloat.eqb (QPS c) 0%float then 50%float else QPS c.
Proof.
  unfold fillClientConnection. cbv zeta.
  repeat (case_match; simpl in *); congruence.
Qed.

Lemma Burst_fillClientConnection (c : ClientConnectionConfiguration) :
  Burst (fillClientConnection c) = if Z.eqb (Burst c) 0 then 100 else Burst c.
Proof.
  unfold fillClientConnection. cbv zeta.
  repeat (case_match; simpl in *); congruence.
Qed.

Lemma ContentType_fillClientConnection (c : ClientConnectionConfiguration) :
  ContentType (fillClientConnection c)
  = if len_is_0 (ContentType c)
    then "application/vnd.kubernetes.protobuf" else ContentType c.
Proof.
  unfold fillClientConnection. cbv zeta.
  repeat (case_match; simpl in *); congruence.
Qed.

(** C4: when the recommended leader-election defaults keep a resource lock
    that is set, [SetDefaults_KubeSchedulerConfiguration] turns the empty
    configuration into one with parallelism 16, QPS 50.0, burst 100,
    initial backoff 1, maximal backoff 10, profiling and contention
    profiling enabled, the protobuf content type and the resource lock
    "leases"; and for every configuration each of these fields gets its
    default exactly when it is nil, empty or zero and keeps its value
    otherwise. *)
Theorem C4_scalar_defaults
    (Hlock : forall l, len_is_0 (ResourceLock l) = false ->
             ResourceLock (RecommendedDefaultLeaderElectionConfiguration X l)
             = ResourceLock l) :
  (let obj' := SetDefaults_KubeSchedulerConfiguration X emptyConfiguration in
   Parallelism obj' = Some 16
   ∧ QPS (ClientConnection obj') = 50%float
   ∧ Burst (ClientConnection obj') = 100
   ∧ PodInitialBackoffSeconds obj' = Some 1
   ∧ PodMaxBackoffSeconds obj' = Some 10
   ∧ EnableProfiling obj' = Some true
   ∧ EnableContentionProfiling obj' = Some true
   ∧ ContentType (ClientConnection obj') = "application/vnd.kubernetes.protobuf"
   ∧ ResourceLock (LeaderElection obj') = "leases")
  ∧ (forall obj : KubeSchedulerConfiguration A,
       let obj' := SetDefaults_KubeSchedulerConfiguration X obj in
       Parallelism obj' = Some (default 16 (Parallelism obj))
       ∧ QPS (ClientConnection obj')
         = (if PrimFloat.eqb (QPS (ClientConnection obj)) 0%float
            then 50%float else QPS (ClientConnection obj))
       ∧ Burst (ClientConnection obj')
         = (if Z.eqb (Burst (ClientConnection obj)) 0
            then 100 else Burst (ClientConnection obj))
       ∧ PodInitialBackoffSeconds obj' = Some (default 1 (PodInitialBackoffSeconds obj))
       ∧ PodMaxBackoffSeconds obj' = Some (default 10 (PodMaxBackoffSeconds obj))
       ∧ EnableProfiling obj' = Some (default true (EnableProfiling obj))
       ∧ (forall c, EnableContentionProfiling obj = Some c ->
                    EnableContentionProfiling obj' = Some c)
       ∧ ContentType (ClientConnection obj')
         = (if len_is_0 (ContentType (ClientConnection obj))
            then "application/vnd.kubernetes.protobuf"
            else ContentType (ClientConnection obj))
       ∧ ResourceLock (LeaderElection obj')
         = (if len_is_0 (ResourceLock (LeaderElection obj))
            then "leases" else ResourceLock (LeaderElection obj))).
Proof.
  assert (Hall : forall obj : KubeSchedulerConfiguration A,
            ResourceLock (LeaderElection (SetDefaults_KubeSchedulerConfiguration X obj))
            = (if len_is_0 (ResourceLock (LeaderElection obj))
               then "leases" else ResourceLock (LeaderElection obj))).
  { intros obj. rewrite SetDefaults_LeaderElection, Hlock;
      rewrite ResourceLock_fillLeaderElection; [done|].
    by destruct (len_is_0 (ResourceLock (LeaderElection obj))) eqn:?. }
  split.
  - intros obj'. subst obj'.
    rewrite SetDefaults_Parallelism, SetDefaults_ClientConnection,
      SetDefaults_PodInitialBackoffSeconds, SetDefaults_PodMaxBackoffSeconds,
      SetDefaults_EnableProfiling, SetDefaults_EnableContentionProfiling, Hall.
    by repeat split.
  - intros obj obj'. subst obj'.
    rewrite SetDefaults_Parallelism, SetDefaults_ClientConnection,
      SetDefaults_PodInitialBackoffSeconds, SetDefaults_PodMaxBackoffSeconds,
      SetDefaults_EnableProfiling, SetDefaults_EnableContentionProfiling, Hall,
      QPS_fillClientConnection, Burst_fillClientConnection,
      ContentType_fillClientConnection.
    repeat split. by intros c ->.
Qed.

(** C5: [SetDefaults_KubeSchedulerConfiguration] resolves [EnableProfiling]
    first (nil becomes true, a set value stays), and then sets a nil
    [EnableContentionProfiling] to true exactly when the resolved
    [EnableProfiling] is true: with [EnableProfiling] nil or true a nil
    [EnableContentionProfiling] becomes true, with [EnableProfiling] false
    it stays nil, and a set [EnableContentionProfiling] is never changed. *)
Theorem C5_contention_profiling (obj : KubeSchedulerConfiguration A) :
  let obj' := SetDefaults_KubeSchedulerConfiguration X obj in
  (EnableProfiling obj = None ->
     EnableProfiling obj' = Some true
     ∧ (EnableContentionProfiling obj = None ->
        EnableContentionProfiling obj' = Some true))
  ∧ (forall b, EnableProfiling obj = Some b -> EnableProfiling obj' = Some b)
  ∧ (EnableProfiling obj = Some true -> EnableContentionProfiling obj = None ->
       EnableContentionProfiling obj' = Some true)
  ∧ (EnableProfiling obj = Some false -> EnableContentionProfiling obj = None ->
       EnableContentionProfiling obj' = None)
  ∧ (forall c, EnableContentionProfiling obj = Some c ->
       EnableContentionProfiling obj' = Some c).
Proof.
  intros obj'. subst obj'.
  rewrite SetDefaults_EnableProfiling, SetDefaults_EnableContentionProfiling.
  repeat split; intros; repeat match goal with H : _ = _ |- _ => rewrite H end; done.
Qed.

End ConfigClaims.

Lemma C4_scalar_defaults_witness :
  Parallelism (SetDefaults_KubeSchedulerConfiguration
                 (InTree.externals true) emptyConfiguration) = Some 16.
Proof.
  apply (C4_scalar_defaults (InTree.externals true)).
  intros l Hl. simpl. by rewrite Hl.
Defined.

(** ** The plugin argument structs *)

Lemma int32_small (x : Z) : - 2 ^ 31 <= x < 2 ^ 31 -> int32 x = x.
Proof. intros Hx. unfold int32. rewrite Z.mod_small; lia. Qed.

(** C6: on arguments with an empty [Shape],
    [SetDefaults_VolumeBindingArgs] leaves [Shape] empty when the
    VolumeCapacityPriority feature gate is disabled and sets it to the two
    points (0, 0) and (100, [MaxCustomPriorityScore]) when the gate is
    enabled; a non-empty [Shape] is returned as it is, whatever the gate.
    [MaxCustomPriorityScore] is a constant that fits [int32]. *)
Theorem C6_volume_binding_shape (gate : bool) (MaxCustomPriorityScore : Z)
    (obj : VolumeBindingArgs) :
  - 2 ^ 31 <= MaxCustomPriorityScore < 2 ^ 31 ->
  let obj' := SetDefaults_VolumeBindingArgs gate MaxCustomPriorityScore obj in
  (Shape obj = [] -> gate = false -> Shape obj' = [])
  ∧ (Shape obj = [] -> gate = true ->
     Shape obj' = [ {| Utilization := 0; Score := 0 |};
                    {| Utilization := 100; Score := MaxCustomPriorityScore |} ])
  ∧ (Shape obj <> [] -> Shape obj' = Shape obj).
Proof.
  intros Hmax obj'. subst obj'. unfold SetDefaults_VolumeBindingArgs.
  destruct obj as [timeout shape]. simpl.
  repeat split.
  - intros -> ->. by destruct timeout.
  - intros -> ->. rewrite (int32_small _ Hmax). by destruct timeout.
  - intros Hshape. destruct shape as [|pt shape]; [done|]. by destruct timeout.
Qed.

Lemma C6_volume_binding_shape_witness :
  Shape (SetDefaults_VolumeBindingArgs true 10
           {| BindTimeoutSeconds := None; Shape := [] |})
  = [ {| Utilization := 0; Score := 0 |}; {| Utilization := 100; Score := 10 |} ].
Proof.
  apply (C6_volume_binding_shape true 10 {| BindTimeoutSeconds := None; Shape := [] |});
    [lia|reflexivity|reflexivity].
Defined.

(** The weight that lines 212-216 and 236-240 leave in an entry. *)
Lemma defaultWeights_lookup (resources : list ResourceSpec) (i : nat) (r : ResourceSpec) :
  resources !! i = Some r ->
  defaultWeights resources !! i
  = Some {| ResourceSpec_Name := ResourceSpec_Name r;
            ResourceSpec_Weight :=
              if Z.eqb (ResourceSpec_Weight r) 0 then 1 else ResourceSpec_Weight r |}.
Proof.
  intros Hi. unfold defaultWeights. rewrite list_lookup_fmap, Hi. simpl.
  destruct r as [name w]. simpl. by destruct (Z.eqb w 0).
Qed.

Lemma Balanced_Resources (cpu memory : string)
    (obj : NodeResourcesBalancedAllocationArgs) :
  Resources obj <> [] ->
  Resources (SetDefaults_NodeResourcesBalancedAllocationArgs cpu memory obj)
  = defaultWeights (Resources obj).
Proof.
  intros Hne. unfold SetDefaults_NodeResourcesBalancedAllocationArgs.
  by destruct (Resources obj) as [|r rs] eqn:Hrs.
Qed.

Lemma Fit_ScoringStrategy (cpu memory leastAllocated : string)
    (obj : NodeResourcesFitArgs) (s : ScoringStrategy) :
  NodeResourcesFitArgs_ScoringStrategy obj = Some s ->
  ScoringStrategy_Resources s <> [] ->
  NodeResourcesFitArgs_ScoringStrategy
    (SetDefaults_NodeResourcesFitArgs cpu memory leastAllocated obj)
  = Some {| ScoringStrategy_Type := ScoringStrategy_Type s;
            ScoringStrategy_Resources := defaultWeights (ScoringStrategy_Resources s) |}.
Proof.
  intros Hs Hne. unfold SetDefaults_NodeResourcesFitArgs. rewrite Hs.
  destruct (ScoringStrategy_Resources s) as [|r rs] eqn:Hrs; [done|].
  simpl. by rewrite Hrs.
Qed.

(** C7: on a non-empty resource list,
    [SetDefaults_NodeResourcesBalancedAllocationArgs] and
    [SetDefaults_NodeResourcesFitArgs] keep the length of the list and the
    name of every entry, replace every weight 0 by 1 and keep every other
    weight; so a list with the weights 0 and 3 comes out with the weights 1
    and 3. *)
Theorem C7_weight_normalization (cpu memory leastAllocated : string) :
  (forall obj : NodeResourcesBalancedAllocationArgs,
      Resources obj <> [] ->
      let obj' := SetDefaults_NodeResourcesBalancedAllocationArgs cpu memory obj in
      length (Resources obj') = length (Resources obj)
      ∧ forall i r, Resources obj !! i = Some r ->
          Resources obj' !! i
          = Some {| ResourceSpec_Name := ResourceSpec_Name r;
                    ResourceSpec_Weight :=
                      if Z.eqb (ResourceSpec_Weight r) 0 then 1
                      else ResourceSpec_Weight r |})
  ∧ (forall (obj : NodeResourcesFitArgs) (s : ScoringStrategy),
      NodeResourcesFitArgs_ScoringStrategy obj = Some s ->
      ScoringStrategy_Resources s <> [] ->
      let obj' := SetDefaults_NodeResourcesFitArgs cpu memory leastAllocated obj in
      exists s',
        NodeResourcesFitArgs_ScoringStrategy obj' = Some s'
        ∧ ScoringStrategy_Type s' = ScoringStrategy_Type s
        ∧ length (ScoringStrategy_Resources s') = length (ScoringStrategy_Resources s)
        ∧ forall i r, ScoringStrategy_Resources s !! i = Some r ->
            ScoringStrategy_Resources s' !! i
            = Some {| ResourceSpec_Name := ResourceSpec_Name r;
                      ResourceSpec_Weight :=
                        if Z.eqb (ResourceSpec_Weight r) 0 then 1
                        else ResourceSpec_Weight r |})
  ∧ (forall n1 n2,
      let resources := [ {| ResourceSpec_Name := n1; ResourceSpec_Weight := 0 |};
                         {| ResourceSpec_Name := n2; ResourceSpec_Weight := 3 |} ] in
      let resources' := [ {| ResourceSpec_Name := n1; ResourceSpec_Weight := 1 |};
                          {| ResourceSpec_Name := n2; ResourceSpec_Weight := 3 |} ] in
      Resources (SetDefaults_NodeResourcesBalancedAllocationArgs cpu memory
                   {| Resources := resources |}) = resources'
      ∧ forall type,
          SetDefaults_NodeResourcesFitArgs cpu memory leastAllocated
            {| NodeResourcesFitArgs_ScoringStrategy :=
                 Some {| ScoringStrategy_Type := type;
                         ScoringStrategy_Resources := resources |} |}
          = {| NodeResourcesFitArgs_ScoringStrategy :=
                 Some {| ScoringStrategy_Type := type;
                         ScoringStrategy_Resources := resources' |} |}).
Proof.
  repeat split.
  - rewrite Balanced_Resources by done. unfold defaultWeights. by rewrite length_fmap.
  - intros i r Hi. rewrite Balanced_Resources by done. by apply defaultWeights_lookup.
  - intros obj s Hs Hne obj'. subst obj'.
    eexists. split; [by apply Fit_ScoringStrategy|]. simpl. repeat split.
    + unfold defaultWeights. by rewrite length_fmap.
    + intros i r Hi. by apply defaultWeights_lookup.
Qed.

(** ** Failure of the merge collaborator *)

Section MergeFailureClaims.

Context {A E : Type} (X : Externals A).
Variable mergePlugins_E : option Plugins -> option Plugins -> E + option Plugins.

Local Abbreviation profile_E := (setDefaults_KubeSchedulerProfile_E X mergePlugins_E).
Local Abbreviation merge_E := (mergePlugins_E (getDefaultPlugins X)).

Lemma defaultProfiles_E_failure (before after : list (KubeSchedulerProfile A))
    (prof : KubeSchedulerProfile A) (e : E) :
  (forall p, p ∈ before -> exists plugins, merge_E (Profile_Plugins p) = inr plugins) ->
  merge_E (Profile_Plugins prof) = inl e ->
  defaultProfiles_E X mergePlugins_E (before ++ prof :: after) = inl e.
Proof.
  induction before as [|p before IH]; intros Hbefore Hprof; simpl.
  - unfold setDefaults_KubeSchedulerProfile_E. by rewrite Hprof.
  - destruct (Hbefore p) as [plugins Hp]; [left|].
    unfold setDefaults_KubeSchedulerProfile_E at 1. rewrite Hp. simpl.
    rewrite IH; [done| |done].
    intros q Hq. apply Hbefore. by right.
Qed.

Lemma defaultProfiles_E_inl (profiles : list (KubeSchedulerProfile A)) (e : E) :
  defaultProfiles_E X mergePlugins_E profiles = inl e ->
  exists prof, prof ∈ profiles ∧ merge_E (Profile_Plugins prof) = inl e.
Proof.
  induction profiles as [|p profiles IH]; simpl; [done|].
  unfold setDefaults_KubeSchedulerProfile_E at 1.
  destruct (merge_E (Profile_Plugins p)) as [e'|plugins] eqn:Hp; simpl.
  - intros [= ->]. exists p. split; [left|done].
  - destruct (defaultProfiles_E X mergePlugins_E profiles) as [e'|rest] eqn:Hrest;
      simpl; [|done].
    intros [= ->]. destruct (IH eq_refl) as (prof & Hin & Hprof).
    exists prof. split; [by right|done].
Qed.

Lemma defaultProfiles_E_total (profiles : list (KubeSchedulerProfile A)) :
  (forall custom, merge_E custom = inr (mergePlugins X (getDefaultPlugins X) custom)) ->
  defaultProfiles_E X mergePlugins_E profiles
  = inr (setDefaults_KubeSchedulerProfile X <$> profiles).
Proof.
  intros Hmerge. induction profiles as [|p profiles IH]; simpl; [done|].
  unfold setDefaults_KubeSchedulerProfile_E at 1. rewrite Hmerge. simpl.
  by rewrite IH.
Qed.


End MergeFailureClaims.

(** ** Idempotence *)

Section Idempotence.

Context {A : Type} (X : Externals A).

Local Abbreviation scheme := (GetPluginArgConversionScheme X).

Hypothesis Hmerge : merge_idempotent X.
Hypothesis Hdefault : default_idempotent scheme.
Hypothesis Hleader :
  leader_election_fill_in (RecommendedDefaultLeaderElectionConfiguration X).

Lemma defaultExistingArgs_idempotent (pc : PluginConfig A) :
  defaultExistingArgs scheme (defaultExistingArgs scheme pc)
  = defaultExistingArgs scheme pc.
Proof.
  destruct pc as [name [raw [|gvk bytes|gvk a]]]; unfold defaultExistingArgs; simpl;
    try done.
  by rewrite Hdefault.
Qed.

Lemma defaultExistingArgs_defaultConfigFor (name : string) (a : A) :
  defaultExistingArgs scheme (defaultConfigFor X name a) = defaultConfigFor X name a.
Proof.
  unfold defaultExistingArgs, defaultConfigFor. simpl. by rewrite Hdefault.
Qed.

Lemma defaultExistingArgs_newConfigs (existing : gset string) (names : list string) :
  defaultExistingArgs scheme <$> newConfigs X existing names
  = newConfigs X existing names.
Proof.
  rewrite <- (list_fmap_id (newConfigs X existing names)) at 2.
  apply list_fmap_ext. intros i pc Hpc.
  apply list_elem_of_lookup_2 in Hpc. unfold newConfigs in Hpc.
  apply list_elem_of_omap in Hpc as (name & _ & Hname).
  destruct (StringSet.Has existing name); [done|].
  destruct (scheme_New scheme _) as [a|]; simplify_eq/=.
  apply defaultExistingArgs_defaultConfigFor.
Qed.

Lemma newConfigs_nil (existing : gset string) (names : list string) :
  (forall name, name ∈ names -> name ∈ existing \/ ~ hasArgsType X name) ->
  newConfigs X existing names = [].
Proof.
  intros Hnames. apply (fmap_nil_inv PluginConfig_Name).
  fold (configNames (newConfigs X existing names)).
  rewrite configNames_newConfigs.
  induction names as [|name names IH]; [done|].
  rewrite filter_cons. rewrite decide_False.
  - apply IH. intros n Hn. apply Hnames. by right.
  - destruct (Hnames name) as [Hin|Hno]; [left|tauto..].
Qed.

Lemma completePluginConfig_eq plugins (prof : KubeSchedulerProfile A) :
  completePluginConfig X plugins prof
  = {| SchedulerName := SchedulerName prof;
       Profile_Plugins := plugins;
       Profile_PluginConfig :=
         (defaultExistingArgs scheme <$> Profile_PluginConfig prof)
         ++ newConfigs X (list_to_set (configNames (Profile_PluginConfig prof)))
                       (pluginsNames plugins) |}.
Proof.
  unfold completePluginConfig. rewrite defaultExistingConfigs_eq. simpl.
  by rewrite appendDefaultConfig_foldl.
Qed.

(** Defaulting a defaulted profile changes nothing. *)
Lemma setDefaults_KubeSchedulerProfile_idempotent (prof : KubeSchedulerProfile A) :
  setDefaults_KubeSchedulerProfile X (setDefaults_KubeSchedulerProfile X prof)
  = setDefaults_KubeSchedulerProfile X prof.
Proof.
  unfold setDefaults_KubeSchedulerProfile at 1.
  rewrite completePluginConfig_eq.
  unfold setDefaults_KubeSchedulerProfile.
  rewrite !completePluginConfig_Plugins, !completePluginConfig_SchedulerName,
    !completePluginConfig_PluginConfig, Hmerge.
  rewrite (completePluginConfig_eq _ prof). f_equal.
  set (plugins := mergePlugins X (getDefaultPlugins X) (Profile_Plugins prof)).
  set (configs := Profile_PluginConfig prof).
  rewrite fmap_app, <- list_fmap_compose, defaultExistingArgs_newConfigs.
  set (new := newConfigs X (list_to_set (configNames configs)) (pluginsNames plugins)).
  assert (Hnil : newConfigs X
                   (list_to_set
                      (configNames ((defaultExistingArgs scheme <$> configs) ++ new)))
                   (pluginsNames plugins) = []).
  { apply newConfigs_nil. intros name Hname.
    unfold configNames. rewrite fmap_app. fold (configNames new).
    rewrite <- list_fmap_compose. subst new.
    rewrite configNames_newConfigs.
    rewrite elem_of_list_to_set, elem_of_app, list_elem_of_filter,
      elem_of_list_to_set.
    destruct (decide (hasArgsType X name)); [|by right]. left.
    destruct (decide (name ∈ configNames configs)) as [Hin|Hnin]; [|by right].
    left. revert Hin. unfold configNames. rewrite !list_elem_of_fmap.
    intros (pc & -> & Hpc). exists pc. split; [|done].
    simpl. by rewrite defaultExistingArgs_Name. }
  rewrite Hnil, app_nil_r. f_equal.
  apply list_fmap_ext. intros i pc _. apply defaultExistingArgs_idempotent.
Qed.

Lemma len_is_0_true (s : string) : len_is_0 s = true -> s = "".
Proof. by destruct s. Qed.

Lemma ResourceNamespace_fillLeaderElection (l : LeaderElectionConfiguration) :
  ResourceNamespace (fillLeaderElection X l)
  = if len_is_0 (ResourceNamespace l)
    then SchedulerDefaultLockObjectNamespace X else ResourceNamespace l.
Proof.
  unfold fillLeaderElection. cbv zeta.
  repeat (case_match; simpl in *); congruence.
Qed.

Lemma ResourceName_fillLeaderElection (l : LeaderElectionConfiguration) :
  ResourceName (fillLeaderElection X l)
  = if len_is_0 (ResourceName l)
    then SchedulerDefaultLockObjectName X else ResourceName l.
Proof.
  unfold fillLeaderElection. cbv zeta.
  repeat (case_match; simpl in *); congruence.
Qed.

(** The assignments of lines 127-138 find nothing to do after the
    recommended defaults have run on their result. *)
Lemma fillLeaderElection_fixed (l : LeaderElectionConfiguration) :
  let l' := RecommendedDefaultLeaderElectionConfiguration X (fillLeaderElection X l) in
  fillLeaderElection X l' = l'.
Proof.
  intros l'.
  destruct Hleader as [_ Hlock Hnamespace Hname].
  assert (H1 : len_is_0 (ResourceLock l') = false).
  { subst l'. rewrite Hlock; rewrite (ResourceLock_fillLeaderElection X);
      by destruct (len_is_0 (ResourceLock l)) eqn:?. }
  assert (H2 : len_is_0 (ResourceNamespace l') = true ->
               SchedulerDefaultLockObjectNamespace X = ResourceNamespace l').
  { intros Hempty. rewrite (len_is_0_true _ Hempty).
    destruct (len_is_0 (ResourceNamespace (fillLeaderElection X l))) eqn:Hfill.
    - rewrite ResourceNamespace_fillLeaderElection in Hfill.
      destruct (len_is_0 (ResourceNamespace l)) eqn:?; [|congruence].
      by apply len_is_0_true.
    - subst l'. rewrite Hnamespace in Hempty; congruence. }
  assert (H3 : len_is_0 (ResourceName l') = true ->
               SchedulerDefaultLockObjectName X = ResourceName l').
  { intros Hempty. rewrite (len_is_0_true _ Hempty).
    destruct (len_is_0 (ResourceName (fillLeaderElection X l))) eqn:Hfill.
    - rewrite ResourceName_fillLeaderElection in Hfill.
      destruct (len_is_0 (ResourceName l)) eqn:?; [|congruence].
      by apply len_is_0_true.
    - subst l'. rewrite Hname in Hempty; congruence. }
  clearbody l'. unfold fillLeaderElection. cbv zeta. rewrite H1.
  destruct (len_is_0 (ResourceNamespace l')) eqn:Hns.
  - rewrite (H2 eq_refl). destruct l' as [le ld rd rp lock name ns]. simpl in *.
    destruct (len_is_0 name) eqn:Hn; [|done]. by rewrite (H3 eq_refl).
  - destruct (len_is_0 (ResourceName l')) eqn:Hn; [|done].
    rewrite (H3 eq_refl). by destruct l'.
Qed.

Lemma fillClientConnection_idempotent (c : ClientConnectionConfiguration) :
  fillClientConnection (fillClientConnection c) = fillClientConnection c.
Proof.
  destruct c as [ct qps burst].
  unfold fillClientConnection, set_ContentType, set_QPS, set_Burst.
  cbn [ContentType QPS Burst].
  destruct (len_is_0 ct) eqn:Hct; cbn [ContentType QPS Burst];
    destruct (PrimFloat.eqb qps 0) eqn:Hqps; cbn [ContentType QPS Burst];
    destruct (Z.eqb burst 0) eqn:Hburst; cbn [ContentType QPS Burst];
    repeat (progress (cbn; rewrite ?Hct, ?Hqps, ?Hburst;
                      try change (PrimFloat.eqb 50 0) with false));
    reflexivity.
Qed.

(** On a defaulted profile list lines 108-115 find nothing to do. *)
Lemma fillProfileList_fixed (profiles : list (KubeSchedulerProfile A)) :
  let profiles' := setDefaults_KubeSchedulerProfile X <$> fillProfileList X profiles in
  fillProfileList X profiles' = profiles'.
Proof.
  assert (Hnamed : forall p name,
             SchedulerName p = Some name ->
             fillProfileList X [setDefaults_KubeSchedulerProfile X p]
             = [setDefaults_KubeSchedulerProfile X p]).
  { intros p name Hp. unfold fillProfileList.
    by rewrite setDefaults_SchedulerName, Hp. }
  destruct profiles as [|p [|q ps]]; [| |done].
  - by apply (Hnamed _ (DefaultSchedulerName X)).
  - unfold fillProfileList at 1 2.
    destruct (SchedulerName p) as [name|] eqn:Hp.
    + by apply (Hnamed _ name).
    + by apply (Hnamed _ (DefaultSchedulerName X)).
Qed.

Lemma KubeSchedulerConfiguration_eq (o1 o2 : KubeSchedulerConfiguration A) :
  Parallelism o1 = Parallelism o2 ->
  LeaderElection o1 = LeaderElection o2 ->
  ClientConnection o1 = ClientConnection o2 ->
  EnableProfiling o1 = EnableProfiling o2 ->
  EnableContentionProfiling o1 = EnableContentionProfiling o2 ->
  PercentageOfNodesToScore o1 = PercentageOfNodesToScore o2 ->
  PodInitialBackoffSeconds o1 = PodInitialBackoffSeconds o2 ->
  PodMaxBackoffSeconds o1 = PodMaxBackoffSeconds o2 ->
  Profiles o1 = Profiles o2 ->
  o1 = o2.
Proof. destruct o1, o2. simpl. by intros -> -> -> -> -> -> -> -> ->. Qed.

(** C1: when [mergePlugins] is idempotent on an already merged pipeline,
    the defaulting functions of the scheme are idempotent and the
    recommended leader-election defaults only fill in, applying
    [SetDefaults_KubeSchedulerConfiguration] twice gives the same
    configuration as applying it once. *)
Theorem C1_SetDefaults_idempotent (obj : KubeSchedulerConfiguration A) :
  SetDefaults_KubeSchedulerConfiguration X (SetDefaults_KubeSchedulerConfiguration X obj)
  = SetDefaults_KubeSchedulerConfiguration X obj.
Proof.
  apply KubeSchedulerConfiguration_eq.
  - by rewrite !SetDefaults_Parallelism.
  - rewrite !SetDefaults_LeaderElection.
    rewrite fillLeaderElection_fixed. apply Hleader.
  - rewrite !SetDefaults_ClientConnection. apply fillClientConnection_idempotent.
  - by rewrite !SetDefaults_EnableProfiling.
  - rewrite !SetDefaults_EnableContentionProfiling, SetDefaults_EnableProfiling.
    by destruct (EnableContentionProfiling obj), (EnableProfiling obj) as [[]|].
  - by rewrite !SetDefaults_PercentageOfNodesToScore.
  - by rewrite !SetDefaults_PodInitialBackoffSeconds.
  - by rewrite !SetDefaults_PodMaxBackoffSeconds.
  - rewrite !SetDefaults_Profiles. rewrite fillProfileList_fixed.
    rewrite <- list_fmap_compose. apply list_fmap_ext. intros i p _.
    apply setDefaults_KubeSchedulerProfile_idempotent.
Qed.

End Idempotence.

(** ** The defaulting functions of the argument structs are idempotent *)

Section ArgsFacts.

Variables cpu memory systemDefaulting leastAllocated : string.
Variable gate : bool.
Variable maxScore : Z.

Lemma defaultWeights_idempotent (resources : list ResourceSpec) :
  defaultWeights (defaultWeights resources) = defaultWeights resources.
Proof.
  unfold defaultWeights. rewrite <- list_fmap_compose.
  apply list_fmap_ext. intros i [name w] _. simpl.
  destruct (Z.eqb w 0) eqn:Hw; simpl; [done|]. by rewrite Hw.
Qed.

Lemma defaultWeights_nonzero (resources : list ResourceSpec) :
  Forall (fun r => ResourceSpec_Weight r <> 0) (defaultWeights resources).
Proof.
  unfold defaultWeights. apply Forall_fmap, Forall_forall. intros [name w] _. simpl.
  destruct (Z.eqb w 0) eqn:Hw; simpl; [done|]. by apply Z.eqb_neq.
Qed.

Lemma defaultWeights_defaultResourceSpec :
  defaultWeights (defaultResourceSpec cpu memory) = defaultResourceSpec cpu memory.
Proof. reflexivity. Qed.

Lemma DefaultPreemptionArgs_idempotent (obj : DefaultPreemptionArgs) :
  SetDefaults_DefaultPreemptionArgs (SetDefaults_DefaultPreemptionArgs obj)
  = SetDefaults_DefaultPreemptionArgs obj.
Proof. by destruct obj as [[p|] [a|]]. Qed.

Lemma InterPodAffinityArgs_idempotent (obj : InterPodAffinityArgs) :
  SetDefaults_InterPodAffinityArgs (SetDefaults_InterPodAffinityArgs obj)
  = SetDefaults_InterPodAffinityArgs obj.
Proof. by destruct obj as [[w|]]. Qed.

Lemma VolumeBindingArgs_idempotent (obj : VolumeBindingArgs) :
  SetDefaults_VolumeBindingArgs gate maxScore
    (SetDefaults_VolumeBindingArgs gate maxScore obj)
  = SetDefaults_VolumeBindingArgs gate maxScore obj.
Proof. by destruct obj as [[t|] [|pt shape]], gate. Qed.

Lemma BalancedAllocationArgs_idempotent (obj : NodeResourcesBalancedAllocationArgs) :
  SetDefaults_NodeResourcesBalancedAllocationArgs cpu memory
    (SetDefaults_NodeResourcesBalancedAllocationArgs cpu memory obj)
  = SetDefaults_NodeResourcesBalancedAllocationArgs cpu memory obj.
Proof.
  destruct obj as [[|r rs]]; [done|].
  unfold SetDefaults_NodeResourcesBalancedAllocationArgs.
  cbn [Resources length Nat.eqb].
  change (defaultWeights (r :: rs)) with
    ((if Z.eqb (ResourceSpec_Weight r) 0 then set_Weight 1 r else r)
       :: defaultWeights rs) at 1.
  cbn [Resources length Nat.eqb]. by rewrite defaultWeights_idempotent.
Qed.

Lemma PodTopologySpreadArgs_idempotent (obj : PodTopologySpreadArgs) :
  SetDefaults_PodTopologySpreadArgs systemDefaulting
    (SetDefaults_PodTopologySpreadArgs systemDefaulting obj)
  = SetDefaults_PodTopologySpreadArgs systemDefaulting obj.
Proof.
  destruct obj as [t]. unfold SetDefaults_PodTopologySpreadArgs. simpl.
  destruct (String.eqb t "") eqn:Ht; simpl; [|by rewrite Ht].
  by destruct (String.eqb systemDefaulting "").
Qed.

Lemma Fit_ScoringStrategy_cases (obj : NodeResourcesFitArgs) :
  exists type resources,
    SetDefaults_NodeResourcesFitArgs cpu memory leastAllocated obj
    = {| NodeResourcesFitArgs_ScoringStrategy :=
           Some {| ScoringStrategy_Type := type;
                   ScoringStrategy_Resources := defaultWeights resources |} |}
    ∧ resources <> []
    ∧ type = match NodeResourcesFitArgs_ScoringStrategy obj with
             | None => leastAllocated
             | Some s => ScoringStrategy_Type s
             end
    ∧ resources = match NodeResourcesFitArgs_ScoringStrategy obj with
                  | None => defaultResourceSpec cpu memory
                  | Some s =>
                    match ScoringStrategy_Resources s with
                    | [] => defaultResourceSpec cpu memory
                    | rs => rs
                    end
                  end.
Proof.
  destruct obj as [[[type [|r rs]]|]]; do 2 eexists; (split; [reflexivity|]); done.
Qed.

Lemma FitArgs_idempotent (obj : NodeResourcesFitArgs) :
  SetDefaults_NodeResourcesFitArgs cpu memory leastAllocated
    (SetDefaults_NodeResourcesFitArgs cpu memory leastAllocated obj)
  = SetDefaults_NodeResourcesFitArgs cpu memory leastAllocated obj.
Proof.
  destruct (Fit_ScoringStrategy_cases obj) as (type & resources & -> & Hne & _).
  set (s := {| ScoringStrategy_Type := type;
               ScoringStrategy_Resources := defaultWeights resources |}).
  pose proof (Fit_ScoringStrategy cpu memory leastAllocated
                {| NodeResourcesFitArgs_ScoringStrategy := Some s |} s eq_refl) as Hs.
  destruct (SetDefaults_NodeResourcesFitArgs _ _ _ _) as [s'].
  simpl in Hs. rewrite Hs.
  - by rewrite defaultWeights_idempotent.
  - by destruct resources.
Qed.

End ArgsFacts.

(** ** The instance satisfies the contracts *)

Module InTreeFacts.
Import InTree.

Lemma defaultArgs_idempotent (gate : bool) : default_idempotent (scheme gate).
Proof.
  intros [a|a|a|a|a|a]; simpl; f_equal.
  - apply DefaultPreemptionArgs_idempotent.
  - apply InterPodAffinityArgs_idempotent.
  - apply VolumeBindingArgs_idempotent.
  - apply BalancedAllocationArgs_idempotent.
  - apply PodTopologySpreadArgs_idempotent.
  - apply FitArgs_idempotent.
Qed.

Lemma filter_none {B} (P : B -> Prop) `{!forall x, Decision (P x)} (l : list B) :
  (forall x, x ∈ l -> ~ P x) -> filter P l = [].
Proof.
  induction l as [|x l IH]; intros Hl; [done|].
  rewrite filter_cons, decide_False by (apply Hl; left).
  apply IH. intros y Hy. apply Hl. by right.
Qed.

Lemma mergeSet_merged (d c : PluginSet) : mergeSet d (mergeSet d c) = mergeSet d c.
Proof.
  unfold mergeSet at 1. simpl. f_equal.
  rewrite filter_none; [done|].
  intros pg Hpg [Hdisabled Henabled].
  apply Henabled. unfold pluginNames. rewrite fmap_app, elem_of_app.
  destruct (decide (Plugin_Name pg ∈ pluginNames (PluginSet_Enabled c))); [by right|].
  left. apply list_elem_of_fmap_2, list_elem_of_filter. done.
Qed.

Lemma mergeSet_self (d : PluginSet) : mergeSet d d = d.
Proof.
  destruct d as [enabled disabled]. unfold mergeSet. simpl. f_equal.
  rewrite filter_none; [done|].
  intros pg Hpg [_ Henabled]. apply Henabled. by apply list_elem_of_fmap_2.
Qed.

Lemma merge_merged (d c : option Plugins) : merge d (merge d c) = merge d c.
Proof.
  destruct d as [d|], c as [c|]; simpl; try done.
  - by rewrite !mergeSet_merged.
  - destruct d. simpl. by rewrite !mergeSet_self.
Qed.

Lemma merge_idempotent_externals (gate : bool) : merge_idempotent (externals gate).
Proof. intros custom. apply merge_merged. Qed.

Lemma recommendedLeaderElection_fill_in :
  leader_election_fill_in recommendedLeaderElection.
Proof.
  split.
  - intros [le ld rd rp lock name ns]. unfold recommendedLeaderElection. simpl.
    f_equal.
    + by destruct le.
    + destruct (Z.eqb ld 0) eqn:H; [done|]. by rewrite H.
    + destruct (Z.eqb rd 0) eqn:H; [done|]. by rewrite H.
    + destruct (Z.eqb rp 0) eqn:H; [done|]. by rewrite H.
    + destruct (len_is_0 lock) eqn:H; [done|]. by rewrite H.
  - intros l Hl. simpl. by rewrite Hl.
  - done.
  - done.
Qed.

End InTreeFacts.

Lemma C1_SetDefaults_idempotent_witness :
  SetDefaults_KubeSchedulerConfiguration (InTree.externals true)
    (SetDefaults_KubeSchedulerConfiguration (InTree.externals true) emptyConfiguration)
  = SetDefaults_KubeSchedulerConfiguration (InTree.externals true) emptyConfiguration.
Proof.
  apply (C1_SetDefaults_idempotent (InTree.externals true)).
  - apply InTreeFacts.merge_idempotent_externals.
  - apply InTreeFacts.defaultArgs_idempotent.
  - apply InTreeFacts.recommendedLeaderElection_fill_in.
Defined.

(** * Further properties of the defaulting functions *)

(** ** [pluginsNames] *)

Section PluginsNamesExtras.
Import StringOrder StringOrderFacts.

#[local] Instance lt_antisym : AntiSymm (=) lt.
Proof. intros s1 s2 H12 H21. destruct (lt_irrefl s1). by etrans. Qed.

(** X1: the result of [pluginsNames] is determined by the set of names
    enabled somewhere in the pipeline: pipelines that enable the same names
    give the same list, whatever the extension points, the order, the
    repetitions, the weights and the disabled plugins. *)
Theorem X1_pluginsNames_canonical (p q : option Plugins) :
  (forall name, enabledIn name p <-> enabledIn name q) ->
  pluginsNames p = pluginsNames q.
Proof.
  intros Hsame. apply (StronglySorted_unique lt); try apply pluginsNames_sorted.
  apply NoDup_Permutation; try apply pluginsNames_NoDup.
  intros name. by rewrite !elem_of_pluginsNames.
Qed.

(** X2: [pluginsNames] returns the empty list exactly when no plugin is
    enabled at any extension point; in particular for a nil pipeline. *)
Theorem X2_pluginsNames_empty (p : option Plugins) :
  (pluginsNames p = [] <-> forall name, ~ enabledIn name p)
  ∧ pluginsNames None = [].
Proof.
  split; [|done]. split.
  - intros Hnil name Hname. apply elem_of_pluginsNames in Hname.
    rewrite Hnil in Hname. by apply elem_of_nil in Hname.
  - intros Hnone. destruct (pluginsNames p) as [|name names] eqn:Hnames; [done|].
    destruct (Hnone name). apply elem_of_pluginsNames. rewrite Hnames. left.
Qed.

End PluginsNamesExtras.

Lemma X1_pluginsNames_canonical_witness :
  pluginsNames (Some (InTree.multiPoint
                        [InTree.plugin "VolumeBinding"; InTree.plugin "Foo";
                         InTree.plugin "VolumeBinding"]))
  = pluginsNames (Profile_Plugins InTree.customProfile).
Proof.
  apply X1_pluginsNames_canonical.
  intros name. unfold enabledIn, enabledPlugins. simpl. set_solver.
Defined.

(** ** [setDefaults_KubeSchedulerProfile] *)

Section ProfileExtras.

Context {A : Type} (X : Externals A).

Local Abbreviation scheme := (GetPluginArgConversionScheme X).

Lemma configNames_setDefaults (prof : KubeSchedulerProfile A) :
  let prof' := setDefaults_KubeSchedulerProfile X prof in
  configNames (Profile_PluginConfig prof')
  = configNames (Profile_PluginConfig prof)
    ++ filter (fun name => (name ∉ configNames (Profile_PluginConfig prof))
                           ∧ hasArgsType X name)
              (pluginsNames (Profile_Plugins prof')).
Proof.
  intros prof'. subst prof'. rewrite setDefaults_PluginConfig at 1.
  unfold configNames at 1. rewrite fmap_app.
  fold (configNames (defaultExistingArgs scheme <$> Profile_PluginConfig prof)).
  rewrite configNames_defaultExistingArgs. f_equal.
  fold (configNames (newConfigs X (list_to_set (configNames (Profile_PluginConfig prof)))
                       (pluginsNames (Profile_Plugins
                                        (setDefaults_KubeSchedulerProfile X prof))))).
  rewrite configNames_newConfigs. apply list_filter_iff.
  intros name. by rewrite elem_of_list_to_set.
Qed.

(** X3: [setDefaults_KubeSchedulerProfile] keeps the names of the
    [PluginConfig] entries distinct: when no two given entries share a
    name, no two entries of the result do. *)
Theorem X3_distinct_names_preserved (prof : KubeSchedulerProfile A) :
  NoDup (configNames (Profile_PluginConfig prof)) ->
  NoDup (configNames (Profile_PluginConfig (setDefaults_KubeSchedulerProfile X prof))).
Proof.
  intros Hnodup. rewrite configNames_setDefaults. apply NoDup_app. repeat split.
  - done.
  - intros name Hin [[Hnin _] _]%list_elem_of_filter. done.
  - apply NoDup_filter, pluginsNames_NoDup.
Qed.

(** X4: an entry of [PluginConfig] that holds a typed argument object
    stays at its position with its name, its raw bytes and the kind of the
    object, and the object is the one given with the defaulting function
    of the scheme applied to it. *)
Theorem X4_typed_entry_defaulted_in_place (prof : KubeSchedulerProfile A)
    (j : nat) (pc : PluginConfig A) (gvk : GroupVersionKind) (a : A) :
  Profile_PluginConfig prof !! j = Some pc ->
  RawExtension_Object (PluginConfig_Args pc) = Typed gvk a ->
  Profile_PluginConfig (setDefaults_KubeSchedulerProfile X prof) !! j
  = Some {| PluginConfig_Name := PluginConfig_Name pc;
            PluginConfig_Args :=
              {| Raw := Raw (PluginConfig_Args pc);
                 RawExtension_Object := Typed gvk (scheme_Default scheme a) |} |}.
Proof.
  intros Hj Htyped. rewrite (lookup_existing _ _ _ _ Hj).
  unfold defaultExistingArgs. by rewrite Htyped.
Qed.

(** X5: every entry that [setDefaults_KubeSchedulerProfile] appends is
    for a plugin that is enabled in the merged pipeline and had no entry;
    it has no raw bytes and holds the zero value that the scheme builds for
    the kind "<name>Args" of the scheme's group and version, defaulted and
    tagged with that kind. *)
Theorem X5_appended_entries (prof : KubeSchedulerProfile A) (pc : PluginConfig A) :
  let configs := Profile_PluginConfig prof in
  let prof' := setDefaults_KubeSchedulerProfile X prof in
  pc ∈ drop (length configs) (Profile_PluginConfig prof') ->
  let name := PluginConfig_Name pc in
  let gvk := WithKind (SchemeGroupVersion X) (name ++ "Args") in
  enabledIn name (Profile_Plugins prof')
  ∧ (name ∉ configNames configs)
  ∧ exists a, scheme_New scheme gvk = Some a
              ∧ pc = {| PluginConfig_Name := name;
                        PluginConfig_Args :=
                          {| Raw := "";
                             RawExtension_Object :=
                               Typed gvk (scheme_Default scheme a) |} |}.
Proof.
  intros configs prof' Hpc. subst configs prof'.
  rewrite drop_existing in Hpc. unfold newConfigs in Hpc.
  apply list_elem_of_omap in Hpc as (n & Hn & Hpc).
  destruct (StringSet.Has _ n) eqn:Hhas; [done|].
  destruct (scheme_New scheme _) as [a|] eqn:Hnew; simplify_eq/=.
  repeat split.
  - by apply elem_of_pluginsNames.
  - apply Has_false in Hhas. by rewrite elem_of_list_to_set in Hhas.
  - by exists a.
Qed.

(** X6: a plugin name that already has a [PluginConfig] entry gets no
    second one, whether or not the scheme has an argument type for it: the
    entries under that name are as many as before and none is appended. *)
Theorem X6_existing_entry_wins (prof : KubeSchedulerProfile A) (name : string) :
  let configs := Profile_PluginConfig prof in
  let configs' := Profile_PluginConfig (setDefaults_KubeSchedulerProfile X prof) in
  name ∈ configNames configs ->
  countConfigs name configs' = countConfigs name configs
  ∧ name ∉ configNames (drop (length configs) configs').
Proof.
  intros configs configs' Hin. subst configs configs'. split.
  - rewrite countConfigs_setDefaults. rewrite decide_False by tauto. lia.
  - rewrite drop_existing, configNames_newConfigs, list_elem_of_filter.
    rewrite elem_of_list_to_set. tauto.
Qed.

(** X7: [setDefaults_KubeSchedulerProfile] never removes an entry: the
    result has the given entries plus one for every name of [pluginsNames]
    of the merged pipeline that has no entry and an argument type in the
    scheme. *)
Theorem X7_number_of_entries (prof : KubeSchedulerProfile A) :
  let configs := Profile_PluginConfig prof in
  let prof' := setDefaults_KubeSchedulerProfile X prof in
  length (Profile_PluginConfig prof')
  = (length configs
     + length (filter (fun name => (name ∉ configNames configs) ∧ hasArgsType X name)
                      (pluginsNames (Profile_Plugins prof'))))%nat.
Proof.
  intros configs prof'. subst configs prof'.
  rewrite <- (length_fmap PluginConfig_Name).
  fold (configNames (Profile_PluginConfig (setDefaults_KubeSchedulerProfile X prof))).
  rewrite configNames_setDefaults, length_app. unfold configNames at 1.
  by rewrite length_fmap.
Qed.

(** X8: in a defaulted profile every enabled plugin for which the scheme
    has an argument type has an entry in [PluginConfig], whatever entries
    were given. *)
Theorem X8_enabled_plugins_configured (prof : KubeSchedulerProfile A) (name : string) :
  let prof' := setDefaults_KubeSchedulerProfile X prof in
  enabledIn name (Profile_Plugins prof') ->
  hasArgsType X name ->
  name ∈ configNames (Profile_PluginConfig prof').
Proof.
  intros prof' Henabled Htype. subst prof'.
  rewrite configNames_setDefaults, elem_of_app, list_elem_of_filter,
    elem_of_pluginsNames.
  destruct (decide (name ∈ configNames (Profile_PluginConfig prof))); tauto.
Qed.

End ProfileExtras.

Lemma X3_distinct_names_preserved_witness :
  NoDup (configNames
           (Profile_PluginConfig
              (setDefaults_KubeSchedulerProfile (InTree.externals true)
                                                InTree.customProfile))).
Proof.
  apply X3_distinct_names_preserved.
  apply (bool_decide_unpack _). by vm_compute.
Defined.

Lemma X4_typed_entry_defaulted_in_place_witness :
  Profile_PluginConfig
    (setDefaults_KubeSchedulerProfile (InTree.externals true) InTree.customProfile)
  !! 0%nat
  = Some {| PluginConfig_Name := "VolumeBinding";
            PluginConfig_Args :=
              {| Raw := "";
                 RawExtension_Object :=
                   Typed {| Group := "kubescheduler.config.k8s.io"; Version := "v1";
                            Kind := "VolumeBindingArgs" |}
                         (InTree.VolumeBinding
                            {| BindTimeoutSeconds := Some 30;
                               Shape := [ {| Utilization := 0; Score := 0 |};
                                          {| Utilization := 100; Score := 10 |} ] |})
              |} |}.
Proof.
  exact (X4_typed_entry_defaulted_in_place (InTree.externals true) InTree.customProfile
           0%nat _ _ _ eq_refl eq_refl).
Defined.

Lemma X5_appended_entries_witness :
  enabledIn "DefaultPreemption"
    (Profile_Plugins
       (setDefaults_KubeSchedulerProfile (InTree.externals true) InTree.fooProfile)).
Proof.
  apply (X5_appended_entries (InTree.externals true) InTree.fooProfile
           (defaultConfigFor (InTree.externals true) "DefaultPreemption"
              (InTree.DefaultPreemption
                 {| MinCandidateNodesPercentage := None;
                    MinCandidateNodesAbsolute := None |}))).
  apply list_elem_of_lookup. exists 0%nat. by vm_compute.
Defined.

Lemma X6_existing_entry_wins_witness :
  countConfigs "VolumeBinding"
    (Profile_PluginConfig
       (setDefaults_KubeSchedulerProfile (InTree.externals true) InTree.customProfile))
  = countConfigs "VolumeBinding" (Profile_PluginConfig InTree.customProfile).
Proof.
  apply (X6_existing_entry_wins (InTree.externals true) InTree.customProfile).
  apply (bool_decide_unpack _). by vm_compute.
Defined.

Lemma X8_enabled_plugins_configured_witness :
  "VolumeBinding"
  ∈ configNames
      (Profile_PluginConfig
         (setDefaults_KubeSchedulerProfile (InTree.externals true) InTree.fooProfile)).
Proof.
  apply (X8_enabled_plugins_configured (InTree.externals true) InTree.fooProfile).
  - apply (bool_decide_unpack _). by vm_compute.
  - apply (bool_decide_unpack _). by vm_compute.
Defined.

(** ** [SetDefaults_KubeSchedulerConfiguration] *)

Section ConfigExtras.

Context {A : Type} (X : Externals A).

Lemma setDefaults_set_SchedulerName (name : option string) (p : KubeSchedulerProfile A) :
  setDefaults_KubeSchedulerProfile X (set_SchedulerName name p)
  = set_SchedulerName name (setDefaults_KubeSchedulerProfile X p).
Proof.
  unfold setDefaults_KubeSchedulerProfile. by rewrite !completePluginConfig_eq.
Qed.

(** X9: [SetDefaults_KubeSchedulerConfiguration] defaults the profiles in
    place: a non-empty profile list keeps its length and its order, and the
    profile at each position is [setDefaults_KubeSchedulerProfile] of the
    given one, except that the only profile of a configuration gets the
    default scheduler name when it has none; an empty list becomes the one
    default-named profile, defaulted. *)
Theorem X9_profiles_defaulted_in_place (obj : KubeSchedulerConfiguration A) :
  let obj' := SetDefaults_KubeSchedulerConfiguration X obj in
  length (Profiles obj') = Nat.max 1 (length (Profiles obj))
  ∧ (forall i p, Profiles obj !! i = Some p ->
       Profiles obj' !! i
       = Some (match Profiles obj, SchedulerName p with
               | [_], None =>
                 set_SchedulerName (Some (DefaultSchedulerName X))
                                   (setDefaults_KubeSchedulerProfile X p)
               | _, _ => setDefaults_KubeSchedulerProfile X p
               end))
  ∧ (Profiles obj = [] ->
       Profiles obj'
       = [setDefaults_KubeSchedulerProfile X
            {| SchedulerName := Some (DefaultSchedulerName X);
               Profile_Plugins := None; Profile_PluginConfig := [] |}]).
Proof.
  intros obj'. subst obj'. rewrite SetDefaults_Profiles.
  destruct (Profiles obj) as [|p [|q ps]].
  - split; [done|]. split; [|done]. by intros i p Hp.
  - unfold fillProfileList.
    destruct (SchedulerName p) as [name|] eqn:Hname.
    + split; [done|]. split; [|done].
      intros [|i] p' Hp'; simplify_eq/=. by rewrite Hname.
    + split; [done|]. split; [|done].
      intros [|i] p' Hp'; simplify_eq/=.
      by rewrite Hname, setDefaults_set_SchedulerName.
  - unfold fillProfileList.
    split; [by rewrite length_fmap|]. split; [|done].
    intros i p' Hp'. rewrite list_lookup_fmap, Hp'. simpl.
    by destruct (SchedulerName p').
Qed.

(** X10: after [SetDefaults_KubeSchedulerConfiguration] the pointer fields
    [Parallelism], [PercentageOfNodesToScore], [PodInitialBackoffSeconds],
    [PodMaxBackoffSeconds] and [EnableProfiling] are never nil, and
    [PercentageOfNodesToScore] is the given value or, when nil, the
    package default. *)
Theorem X10_pointer_fields_set (obj : KubeSchedulerConfiguration A) :
  let obj' := SetDefaults_KubeSchedulerConfiguration X obj in
  is_Some (Parallelism obj')
  ∧ is_Some (PodInitialBackoffSeconds obj')
  ∧ is_Some (PodMaxBackoffSeconds obj')
  ∧ is_Some (EnableProfiling obj')
  ∧ PercentageOfNodesToScore obj'
    = Some (default (DefaultPercentageOfNodesToScore X) (PercentageOfNodesToScore obj)).
Proof.
  intros obj'. subst obj'.
  rewrite SetDefaults_Parallelism, SetDefaults_PodInitialBackoffSeconds,
    SetDefaults_PodMaxBackoffSeconds, SetDefaults_EnableProfiling,
    SetDefaults_PercentageOfNodesToScore.
  repeat split; by eexists.
Qed.

(** X11: when the lock object namespace and name constants are not empty
    and the recommended leader-election defaults keep a namespace and a
    name that are set, [SetDefaults_KubeSchedulerConfiguration] gives an
    empty [ResourceNamespace] and an empty [ResourceName] the constants and
    keeps the ones that are set. *)
Theorem X11_lock_object_defaults (obj : KubeSchedulerConfiguration A) :
  len_is_0 (SchedulerDefaultLockObjectNamespace X) = false ->
  len_is_0 (SchedulerDefaultLockObjectName X) = false ->
  (forall l, len_is_0 (ResourceNamespace l) = false ->
             ResourceNamespace (RecommendedDefaultLeaderElectionConfiguration X l)
             = ResourceNamespace l) ->
  (forall l, len_is_0 (ResourceName l) = false ->
             ResourceName (RecommendedDefaultLeaderElectionConfiguration X l)
             = ResourceName l) ->
  let obj' := SetDefaults_KubeSchedulerConfiguration X obj in
  ResourceNamespace (LeaderElection obj')
  = (if len_is_0 (ResourceNamespace (LeaderElection obj))
     then SchedulerDefaultLockObjectNamespace X
     else ResourceNamespace (LeaderElection obj))
  ∧ ResourceName (LeaderElection obj')
    = (if len_is_0 (ResourceName (LeaderElection obj))
       then SchedulerDefaultLockObjectName X
       else ResourceName (LeaderElection obj)).
Proof.
  intros Hc1 Hc2 Hns Hname obj'. subst obj'.
  rewrite SetDefaults_LeaderElection. split.
  - rewrite Hns; rewrite (ResourceNamespace_fillLeaderElection X); [done|].
    by destruct (len_is_0 (ResourceNamespace (LeaderElection obj))) eqn:?.
  - rewrite Hname; rewrite (ResourceName_fillLeaderElection X); [done|].
    by destruct (len_is_0 (ResourceName (LeaderElection obj))) eqn:?.
Qed.

End ConfigExtras.

Lemma X11_lock_object_defaults_witness :
  ResourceNamespace
    (LeaderElection
       (SetDefaults_KubeSchedulerConfiguration (InTree.externals true)
                                               emptyConfiguration))
  = "kube-system".
Proof.
  apply (X11_lock_object_defaults (InTree.externals true) emptyConfiguration);
    done.
Defined.

(** ** The plugin argument structs *)

Section ArgsExtras.

Variables cpu memory systemDefaulting leastAllocated : string.
Variable maxScore : Z.

(** X12: [SetDefaults_DefaultPreemptionArgs] sets a nil
    [MinCandidateNodesPercentage] to 10 and a nil
    [MinCandidateNodesAbsolute] to 100, each independently of the other,
    keeps the values that are set (zero included), and applying it again
    changes nothing. *)
Theorem X12_DefaultPreemptionArgs (obj : DefaultPreemptionArgs) :
  let obj' := SetDefaults_DefaultPreemptionArgs obj in
  MinCandidateNodesPercentage obj'
  = Some (default 10 (MinCandidateNodesPercentage obj))
  ∧ MinCandidateNodesAbsolute obj'
    = Some (default 100 (MinCandidateNodesAbsolute obj))
  ∧ SetDefaults_DefaultPreemptionArgs obj' = obj'.
Proof.
  intros obj'. subst obj'. split; [|split].
  - by destruct obj as [[p|] [a|]].
  - by destruct obj as [[p|] [a|]].
  - apply DefaultPreemptionArgs_idempotent.
Qed.

(** X13: [SetDefaults_InterPodAffinityArgs] sets a nil
    [HardPodAffinityWeight] to 1 and keeps a weight that is set, zero
    included; applying it again changes nothing. *)
Theorem X13_InterPodAffinityArgs (obj : InterPodAffinityArgs) :
  let obj' := SetDefaults_InterPodAffinityArgs obj in
  HardPodAffinityWeight obj' = Some (default 1 (HardPodAffinityWeight obj))
  ∧ SetDefaults_InterPodAffinityArgs obj' = obj'.
Proof.
  intros obj'. subst obj'. split.
  - by destruct obj as [[w|]].
  - apply InterPodAffinityArgs_idempotent.
Qed.

(** X14: [SetDefaults_VolumeBindingArgs] sets a nil [BindTimeoutSeconds]
    to 600 and keeps one that is set, whatever the feature gate and the
    shape.  The gate is read at each call: defaulting with the gate
    disabled and later with it enabled gives what defaulting with the gate
    enabled gives at once, and a shape set while the gate was enabled stays
    when defaulting again with the gate disabled. *)
Theorem X14_VolumeBindingArgs (gate : bool) (obj : VolumeBindingArgs) :
  BindTimeoutSeconds (SetDefaults_VolumeBindingArgs gate maxScore obj)
  = Some (default 600 (BindTimeoutSeconds obj))
  ∧ SetDefaults_VolumeBindingArgs true maxScore
      (SetDefaults_VolumeBindingArgs false maxScore obj)
    = SetDefaults_VolumeBindingArgs true maxScore obj
  ∧ SetDefaults_VolumeBindingArgs false maxScore
      (SetDefaults_VolumeBindingArgs true maxScore obj)
    = SetDefaults_VolumeBindingArgs true maxScore obj
  ∧ SetDefaults_VolumeBindingArgs gate maxScore
      (SetDefaults_VolumeBindingArgs gate maxScore obj)
    = SetDefaults_VolumeBindingArgs gate maxScore obj.
Proof.
  split; [|split; [|split]].
  - by destruct obj as [[t|] [|pt shape]], gate.
  - by destruct obj as [[t|] [|pt shape]].
  - by destruct obj as [[t|] [|pt shape]].
  - apply VolumeBindingArgs_idempotent.
Qed.


(** X16: [SetDefaults_PodTopologySpreadArgs] sets an empty
    [DefaultingType] to the system defaulting type and keeps any other;
    applying it again changes nothing. *)
Theorem X16_PodTopologySpreadArgs (obj : PodTopologySpreadArgs) :
  let obj' := SetDefaults_PodTopologySpreadArgs systemDefaulting obj in
  DefaultingType obj'
  = (if String.eqb (DefaultingType obj) "" then systemDefaulting
     else DefaultingType obj)
  ∧ SetDefaults_PodTopologySpreadArgs systemDefaulting obj' = obj'.
Proof.
  intros obj'. subst obj'. split.
  - unfold SetDefaults_PodTopologySpreadArgs.
    by destruct (String.eqb (DefaultingType obj) "").
  - apply PodTopologySpreadArgs_idempotent.
Qed.


End ArgsExtras.
